(** * Excel report generator: a shallow embedding of
    [excel_report_generator.py] and the properties of its report assembly.

    The Python class [ExcelReportGenerator] builds a workbook with one
    summary sheet and one styled data sheet per dataset.  The embedding keeps
    the method names of the source.  Exceptions are values of [exn] threaded
    through a small error monad; a worksheet is a finite map from
    [(row, column)] to cells, as openpyxl keeps it; a pandas frame is an
    ordered list of named, typed columns; floats are binary64 values.

    The calls into pandas and openpyxl are embedded by what the call sites
    use them for: [create_sheet] gives a sheet with the title it is asked
    for, a range key gives the cells of the range, a reduction of a
    column gives its sum, mean or first largest position.  The clock, the
    rendering [str] gives a float and the random draws of the sample data
    are parameters of the generator.  Writing the file is the last step of
    [generate_report]; the embedding returns the path and the workbook that
    are handed to it.

    Strings are Rocq byte strings and stand for ASCII text: [len] is the
    number of characters and the case functions act on the letters a-z and
    A-Z only. *)

From Stdlib Require Import ZArith Floats Ascii String.
From stdpp Require Import gmap strings list list_numbers.

Set Warnings "-inexact-float,-register-all".

Local Open Scope string_scope.

(** ** Python runtime *)

Module Py.

(** The built-in exception classes the program can raise.  [KeyError]
    carries the keys that were looked up and not found. *)
Inductive exn : Type :=
  | KeyError (missing : list string)
  | IndexError
  | TypeError
  | ValueError.

Definition exn_class (e : exn) : string :=
  match e with
  | KeyError _ => "KeyError"
  | IndexError => "IndexError"
  | TypeError => "TypeError"
  | ValueError => "ValueError"
  end.

Inductive result (A : Type) : Type :=
  | Ok (a : A)
  | Raise (e : exn).
Arguments Ok {A} a.
Arguments Raise {A} e.

Definition bind {A B} (m : result A) (k : A → result B) : result B :=
  match m with
  | Ok a => k a
  | Raise e => Raise e
  end.

Definition is_ok {A} (m : result A) : bool :=
  match m with Ok _ => true | Raise _ => false end.

(** [str.islower] / [str.isupper] on one ASCII character. *)
Definition is_lower (c : ascii) : bool :=
  let n := nat_of_ascii c in (97 <=? n)%nat && (n <=? 122)%nat.
Definition is_upper (c : ascii) : bool :=
  let n := nat_of_ascii c in (65 <=? n)%nat && (n <=? 90)%nat.
Definition to_upper (c : ascii) : ascii :=
  if is_lower c then ascii_of_nat (nat_of_ascii c - 32) else c.
Definition to_lower (c : ascii) : ascii :=
  if is_upper c then ascii_of_nat (nat_of_ascii c + 32) else c.

(** [s.replace(old, new)] for one-character [old] and [new]. *)
Fixpoint replace (old new : ascii) (s : string) : string :=
  match s with
  | EmptyString => EmptyString
  | String c s' =>
      String (if Ascii.eqb c old then new else c) (replace old new s')
  end.

(** [s.title()]: a cased character is upper-cased when the character before
    it is not cased, and lower-cased otherwise. *)
Fixpoint title_from (previous_is_cased : bool) (s : string) : string :=
  match s with
  | EmptyString => EmptyString
  | String c s' =>
      if is_lower c then
        String (if previous_is_cased then c else to_upper c) (title_from true s')
      else if is_upper c then
        String (if previous_is_cased then to_lower c else c) (title_from true s')
      else String c (title_from false s')
  end.
Definition title (s : string) : string := title_from false s.

(** [len(s)] *)
Definition len (s : string) : Z := Z.of_nat (String.length s).

(** [s[i]] with Python's negative indices. *)
Definition getitem (s : string) (i : Z) : result ascii :=
  let j := if (i <? 0)%Z then (i + len s)%Z else i in
  if (j <? 0)%Z then Raise IndexError
  else match String.get (Z.to_nat j) s with
       | Some c => Ok c
       | None => Raise IndexError
       end.

(** [range(a, b + 1)] *)
Definition range_incl (a b : nat) : list nat := seq a (S b - a).

(** [str(n)] for an integer. *)
Definition digit (n : N) : ascii := ascii_of_N (48 + n).

Fixpoint digits_aux (fuel : nat) (n : N) (acc : string) : string :=
  match fuel with
  | O => acc
  | S fuel' =>
      let acc' := String (digit (n mod 10)) acc in
      if (n / 10 =? 0)%N then acc' else digits_aux fuel' (n / 10)%N acc'
  end.
Definition str_N (n : N) : string := digits_aux (S (N.to_nat (N.log2 n))) n "".
Definition str_Z (z : Z) : string :=
  if (z <? 0)%Z then "-" ++ str_N (Z.to_N (- z)) else str_N (Z.to_N z).

(** Thousands separators: the digits of [s] in groups of three from the
    right, joined by commas. *)
Fixpoint group3 (fuel : nat) (s : string) : string :=
  match fuel with
  | O => s
  | S fuel' =>
      let n := String.length s in
      if (n <=? 3)%nat then s
      else group3 fuel' (substring 0 (n - 3) s) ++ "," ++ substring (n - 3) 3 s
  end.
Definition with_commas (s : string) : string := group3 (String.length s) s.

Fixpoint zeros (n : nat) : string :=
  match n with O => "" | S n' => String "0" (zeros n') end.

(** The decimal digits of [n], left-padded with zeros to [width]. *)
Definition pad_digits (width : nat) (n : N) : string :=
  let s := str_N n in zeros (width - String.length s) ++ s.

(** The integer nearest to [m * 2^e * 10^digits], ties to even: the
    correctly rounded scaling that float formatting performs. *)
Definition round_scaled (m : positive) (e : Z) (digits : nat) : N :=
  let num := (Npos m * 10 ^ N.of_nat digits)%N in
  if (0 <=? e)%Z then (num * 2 ^ Z.to_N e)%N
  else
    let den := (2 ^ Z.to_N (- e))%N in
    let q := (num / den)%N in
    let r := (num mod den)%N in
    if (den <? 2 * r)%N then (q + 1)%N
    else if (2 * r =? den)%N && N.odd q then (q + 1)%N
    else q.

(** [format(x, ',.{digits}f')] when [comma], [format(x, '.{digits}f')]
    otherwise, for a float [x]. *)
Definition format_f (comma : bool) (digits : nat) (x : float) : string :=
  let body (n : N) :=
    let ip := str_N (n / 10 ^ N.of_nat digits) in
    (if comma then with_commas ip else ip) ++
    (match digits with
     | O => ""
     | S _ => "." ++ pad_digits digits (n mod 10 ^ N.of_nat digits)
     end) in
  match Prim2SF x with
  | S754_nan => "nan"
  | S754_infinity s => if s then "-inf" else "inf"
  | S754_zero s => (if s then "-" else "") ++ body 0%N
  | S754_finite s m e => (if s then "-" else "") ++ body (round_scaled m e digits)
  end.

(** [format(x, '.{digits}%')]: the value is multiplied by 100 in floating
    point, formatted in fixed notation and followed by a percent sign. *)
Definition format_percent (digits : nat) (x : float) : string :=
  format_f false digits (x * 100)%float ++ "%".

(** [float(n)] for an integer: the nearest binary64 value, ties to even. *)
Definition float_of_Z (z : Z) : float :=
  SF2Prim (binary_normalize prec emax z 0 false).

(** [os.path.join(a, b)] on a POSIX system. *)
Definition path_join (a b : string) : string :=
  match b with
  | String "/" _ => b
  | _ =>
      if String.eqb a "" then b
      else match String.get (String.length a - 1) a with
           | Some "/"%char => a ++ b
           | _ => a ++ "/" ++ b
           end
  end.

End Py.

Export Py.

#[global] Instance result_ret : MRet result := @Ok.
#[global] Instance result_bind : MBind result := λ A B k m, bind m k.

(** ** pandas frames *)

Module Pandas.

(** A value held by a frame or by a worksheet cell.  [VNone] is the empty
    cell.  A timestamp is carried as the string [str] renders it to. *)
Inductive scalar : Type :=
  | VNone
  | VInt (z : Z)
  | VFloat (x : float)
  | VStr (s : string).

(** A column has one dtype: int64, float64 or object holding strings. *)
Inductive column : Type :=
  | IntCol (xs : list Z)
  | FloatCol (xs : list float)
  | StrCol (xs : list string).

Definition col_values (c : column) : list scalar :=
  match c with
  | IntCol xs => VInt <$> xs
  | FloatCol xs => VFloat <$> xs
  | StrCol xs => VStr <$> xs
  end.

(** A frame: its columns in order, each with its label, and the length of
    its index [0, 1, ..., nrows - 1].  Labels are distinct, as in a frame
    built from a dict. *)
Record DataFrame : Type := {
  columns : list (string * column);
  nrows : nat
}.

(** Every column is as long as the index. *)
Definition wf_frame (df : DataFrame) : Prop :=
  Forall (λ c, length (col_values c.2) = nrows df) (columns df).

Definition labels (df : DataFrame) : list string := fst <$> columns df.

Fixpoint assoc {A} (k : string) (l : list (string * A)) : option A :=
  match l with
  | [] => None
  | (k', a) :: l' => if String.eqb k k' then Some a else assoc k l'
  end.

Definition is_Some_b {A} (o : option A) : bool :=
  match o with Some _ => true | None => false end.

(** [df[label]] *)
Definition getitem_col (df : DataFrame) (label : string) : result column :=
  match assoc label (columns df) with
  | Some c => Ok c
  | None => Raise (KeyError [label])
  end.

(** [df[[label, ...]]]: the labels that are absent are all reported. *)
Definition getitem_cols (df : DataFrame) (ls : list string)
  : result (list (string * column)) :=
  match List.filter (λ l, negb (is_Some_b (assoc l (columns df)))) ls with
  | [] => Ok (omap (λ l, (λ c, (l, c)) <$> assoc l (columns df)) ls)
  | missing => Raise (KeyError missing)
  end.

(** int64 arithmetic wraps around. *)
Definition wrap64 (z : Z) : Z :=
  ((z + 2 ^ 63) mod 2 ^ 64 - 2 ^ 63)%Z.

(** Sums run in index order. *)
Definition sum_Z (xs : list Z) : Z := foldl Z.add 0%Z xs.
Definition sum_float (xs : list float) : float := foldl PrimFloat.add 0%float xs.
Definition not_nan (x : float) : bool := negb (PrimFloat.is_nan x).

(** [series.sum()]: NaN entries are skipped; strings are concatenated. *)
Definition series_sum (c : column) : scalar :=
  match c with
  | IntCol xs => VInt (wrap64 (sum_Z xs))
  | FloatCol xs => VFloat (sum_float (List.filter not_nan xs))
  | StrCol [] => VInt 0
  | StrCol xs => VStr (String.concat "" xs)
  end.

(** [series.mean()]: the float sum of the entries that are not NaN over
    their count, NaN when there is none. *)
Definition series_mean (c : column) : result float :=
  match c with
  | IntCol xs =>
      Ok (sum_float (float_of_Z <$> xs) / float_of_Z (Z.of_nat (length xs)))%float
  | FloatCol xs =>
      let ys := List.filter not_nan xs in
      Ok (sum_float ys / float_of_Z (Z.of_nat (length ys)))%float
  | StrCol [] => Ok nan
  | StrCol _ => Raise TypeError
  end.

(** Position of the first largest element, scanning left to right. *)
Fixpoint argmax_from {A} (lt : A → A → bool) (best : nat) (bv : A) (i : nat)
    (xs : list A) : nat :=
  match xs with
  | [] => best
  | x :: xs' =>
      if lt bv x then argmax_from lt i x (S i) xs'
      else argmax_from lt best bv (S i) xs'
  end.

Definition argmax_Z (xs : list Z) : option nat :=
  match xs with
  | [] => None
  | x :: xs' => Some (argmax_from Z.ltb 0 x 1 xs')
  end.

(** NaN entries are skipped; [None] when every entry is NaN. *)
Fixpoint argmax_float_from (i : nat) (xs : list float) : option nat :=
  match xs with
  | [] => None
  | x :: xs' =>
      if not_nan x then Some (argmax_from (λ a b, not_nan b && PrimFloat.ltb a b) i x (S i) xs')
      else argmax_float_from (S i) xs'
  end.

(** [series.idxmax()] on the default index: the label is the position.
    An empty series raises; a series of NaN only answers NaN, written
    [None]. *)
Definition series_idxmax (c : column) : result (option nat) :=
  match c with
  | IntCol [] | FloatCol [] => Raise ValueError
  | IntCol xs => Ok (argmax_Z xs)
  | FloatCol xs => Ok (argmax_float_from 0 xs)
  | StrCol _ => Raise TypeError
  end.

(** [df.sum()]: one sum per column, labelled by the column. *)
Definition frame_sum (cols : list (string * column)) : list (string * scalar) :=
  (λ lc, (lc.1, series_sum lc.2)) <$> cols.

Definition all_int (vs : list scalar) : option (list Z) :=
  mapM (λ v, match v with VInt z => Some z | _ => None end) vs.
Definition all_numeric (vs : list scalar) : option (list float) :=
  mapM (λ v, match v with
             | VInt z => Some (float_of_Z z)
             | VFloat x => Some x
             | _ => None
             end) vs.

(** [s.idxmax()] on a series labelled by strings, as [df.sum()] returns:
    the label of the first largest entry.  Integers are compared as
    integers when every entry is one, numbers as floats otherwise; an
    object series raises. *)
Definition labelled_idxmax (s : list (string * scalar)) : result scalar :=
  let pick (o : option nat) : scalar :=
    match o with
    | Some i => match s !! i with Some (l, _) => VStr l | None => VNone end
    | None => VFloat nan
    end in
  match s with
  | [] => Raise ValueError
  | _ =>
      match all_int (snd <$> s) with
      | Some zs => Ok (pick (argmax_Z zs))
      | None =>
          match all_numeric (snd <$> s) with
          | Some xs => Ok (pick (argmax_float_from 0 xs))
          | None => Raise TypeError
          end
      end
  end.

(** [series == s], element by element. *)
Definition eq_scalar (c : column) (s : string) : list bool :=
  match c with
  | StrCol xs => (λ x, String.eqb x s) <$> xs
  | IntCol xs => (λ _, false) <$> xs
  | FloatCol xs => (λ _, false) <$> xs
  end.

Fixpoint select {A} (mask : list bool) (xs : list A) : list A :=
  match mask, xs with
  | b :: mask', x :: xs' => if b then x :: select mask' xs' else select mask' xs'
  | _, _ => []
  end.

Definition select_col (mask : list bool) (c : column) : column :=
  match c with
  | IntCol xs => IntCol (select mask xs)
  | FloatCol xs => FloatCol (select mask xs)
  | StrCol xs => StrCol (select mask xs)
  end.

(** [df[mask]]: the rows where the boolean mask holds. *)
Definition getitem_mask (df : DataFrame) (mask : list bool) : DataFrame :=
  {| columns := (λ lc, (lc.1, select_col mask lc.2)) <$> columns df;
     nrows := length (List.filter id (take (nrows df) mask)) |}.

(** [df.loc[row, label]] with [row] as [idxmax] returned it: the column is
    looked up first, then the row. *)
Definition loc (df : DataFrame) (row : option nat) (label : string) : result scalar :=
  c ← getitem_col df label;
  match row with
  | None => Raise (KeyError ["nan"])
  | Some i =>
      match col_values c !! i with
      | Some v => Ok v
      | None => Raise (KeyError [str_Z (Z.of_nat i)])
      end
  end.

(** Row [i] of the frame, one scalar per column. *)
Definition row_values (df : DataFrame) (i : nat) : list scalar :=
  (λ lc, default VNone (col_values lc.2 !! i)) <$> columns df.

(** [dataframe_to_rows(df, index=False, header=True)]: the labels, then
    every row. *)
Definition dataframe_to_rows (df : DataFrame) : list (list scalar) :=
  (VStr <$> labels df) :: (row_values df <$> seq 0 (nrows df)).

End Pandas.

Export Pandas.

(** ** openpyxl workbooks *)

Module Openpyxl.

Record Font : Type := {
  bold : bool;
  italic : bool;
  color : option string;
  size : option Z
}.

Record PatternFill : Type := {
  start_color : string;
  end_color : string;
  fill_type : string
}.

Record Alignment : Type := {
  horizontal : option string;
  vertical : option string
}.

(** [Border(left=Side(style=..), right=.., top=.., bottom=..)] *)
Record Border : Type := {
  side_left : option string;
  side_right : option string;
  side_top : option string;
  side_bottom : option string
}.

(** A cell: its value and the styles assigned to it; [None] is the style a
    new cell has (no fill, no border, default font and alignment). *)
Record Cell : Type := {
  value : scalar;
  font : option Font;
  fill : option PatternFill;
  border : option Border;
  alignment : option Alignment
}.

Definition new_cell (v : scalar) : Cell :=
  {| value := v; font := None; fill := None; border := None; alignment := None |}.

Definition set_value (v : scalar) (c : Cell) : Cell :=
  {| value := v; font := font c; fill := fill c; border := border c;
     alignment := alignment c |}.
Definition set_font (f : Font) (c : Cell) : Cell :=
  {| value := value c; font := Some f; fill := fill c; border := border c;
     alignment := alignment c |}.
Definition set_fill (f : PatternFill) (c : Cell) : Cell :=
  {| value := value c; font := font c; fill := Some f; border := border c;
     alignment := alignment c |}.
Definition set_border (b : Border) (c : Cell) : Cell :=
  {| value := value c; font := font c; fill := fill c; border := Some b;
     alignment := alignment c |}.
Definition set_alignment (a : Alignment) (c : Cell) : Cell :=
  {| value := value c; font := font c; fill := fill c; border := border c;
     alignment := Some a |}.

(** A worksheet: cells by (row, column), both counted from 1; the row the
    last [append] wrote; the widths assigned through [column_dimensions],
    in the order they were assigned; and the merged ranges. *)
Record Worksheet : Type := {
  sheet_title : string;
  cells : gmap (nat * nat) Cell;
  current_row : nat;
  column_dimensions : list (string * Z);
  merged_cells : list string
}.

Abbreviation Workbook := (list Worksheet).

Definition sheetnames (wb : Workbook) : list string := sheet_title <$> wb.

(** The sheet [wb.create_sheet(title)] makes: empty, with the title it is
    asked for. *)
Definition create_sheet (title : string) : Worksheet :=
  {| sheet_title := title; cells := ∅; current_row := 0;
     column_dimensions := []; merged_cells := [] |}.

Definition with_cells (ws : Worksheet) (m : gmap (nat * nat) Cell) : Worksheet :=
  {| sheet_title := sheet_title ws; cells := m; current_row := current_row ws;
     column_dimensions := column_dimensions ws; merged_cells := merged_cells ws |}.

(** [ws.cell(row, column)] followed by an assignment to the cell: the cell
    is created empty when the sheet has none there. *)
Definition modify (f : Cell → Cell) (rc : nat * nat) (m : gmap (nat * nat) Cell)
  : gmap (nat * nat) Cell :=
  <[rc := f (default (new_cell VNone) (m !! rc))]> m.

Definition update_cell (f : Cell → Cell) (row col : nat) (ws : Worksheet) : Worksheet :=
  with_cells ws (modify f (row, col) (cells ws)).

(** [ws.append(row)]: new cells in the row after the last appended one. *)
Definition append (row : list scalar) (ws : Worksheet) : Worksheet :=
  let row_idx := S (current_row ws) in
  {| sheet_title := sheet_title ws;
     cells := foldl (λ m jv, <[(row_idx, S jv.1) := new_cell jv.2]> m)
                (cells ws) (imap (λ j v, (j, v)) row);
     current_row := row_idx;
     column_dimensions := column_dimensions ws;
     merged_cells := merged_cells ws |}.

(** [ws.max_row] and [ws.max_column]: 1 on a sheet without cells. *)
Definition max_row (ws : Worksheet) : nat :=
  match (λ kv : nat * nat * Cell, kv.1.1) <$> map_to_list (cells ws) with
  | [] => 1
  | rs => max_list rs
  end.
Definition max_column (ws : Worksheet) : nat :=
  match (λ kv : nat * nat * Cell, kv.1.2) <$> map_to_list (cells ws) with
  | [] => 1
  | cs => max_list cs
  end.

(** The cell read at a coordinate, empty when the sheet has none there. *)
Definition cell_at (ws : Worksheet) (row col : nat) : Cell :=
  default (new_cell VNone) (cells ws !! (row, col)).

(** The coordinates [ws.iter_rows(min_row, max_row, min_col, max_col)]
    visits, row by row. *)
Definition iter_rows (min_row max_row min_col max_col : nat) : list (nat * nat) :=
  r ← range_incl min_row max_row; (λ c, (r, c)) <$> range_incl min_col max_col.

(** [ws.columns]: nothing before the first [append]; else the columns
    1..max_column, each over the rows 1..max_row. *)
Definition ws_columns (ws : Worksheet) : list (nat * list nat) :=
  if (current_row ws =? 0)%nat then []
  else (λ c, (c, range_incl 1 (max_row ws))) <$> range_incl 1 (max_column ws).

(** [get_column_letter(idx)]: A..Z, AA..AZ, ... *)
Fixpoint column_letter_aux (fuel idx : nat) (acc : string) : string :=
  match fuel with
  | O => acc
  | S fuel' =>
      if (idx =? 0)%nat then acc
      else column_letter_aux fuel' ((idx - 1) / 26)
             (String (ascii_of_nat (65 + (idx - 1) mod 26)) acc)
  end.
Definition get_column_letter (idx : nat) : string := column_letter_aux idx idx "".

(** [column_index_from_string] on one letter. *)
Definition column_index (c : ascii) : nat := nat_of_ascii (to_upper c) - 64.

Fixpoint parse_nat (s : string) (acc : nat) : option nat :=
  match s with
  | EmptyString => Some acc
  | String c s' =>
      let n := nat_of_ascii c in
      if (48 <=? n)%nat && (n <=? 57)%nat then parse_nat s' (10 * acc + (n - 48))
      else None
  end.

(** [ws[key]] for a key such as ["A:E1"], which the header styling builds
    from a column range and a row number: the cells of that row from the
    first to the last named column. *)
Definition getitem_range (key : string) : result (list (nat * nat)) :=
  match key with
  | String a (String ":" (String b (String d ds))) =>
      if (is_upper a || is_lower a) && (is_upper b || is_lower b) then
        match parse_nat (String d ds) 0 with
        | Some row => Ok ((λ c, (row, c)) <$> range_incl (column_index a) (column_index b))
        | None => Raise ValueError
        end
      else Raise ValueError
  | _ => Raise ValueError
  end.

End Openpyxl.

Export Openpyxl.

(** ** The report generator *)

Record Colors : Type := {
  header : string;
  subheader : string;
  accent : string
}.

(** [self.config], as [_load_config] returns it. *)
Record Config : Type := {
  company_name : string;
  report_title : string;
  output_directory : string;
  date_format : string;
  colors : Colors
}.

Definition default_config : Config :=
  {| company_name := "Your Company Name";
     report_title := "Automated Report";
     output_directory := "reports";
     date_format := "%Y-%m-%d";
     colors := {| header := "366092"; subheader := "5B9BD5"; accent := "70AD47" |} |}.

(** The dataset bundle: a dict, in insertion order. *)
Abbreviation Bundle := (list (string * DataFrame)).

(** [data[key]] *)
Definition getitem_dict (data : Bundle) (key : string) : result DataFrame :=
  match assoc key data with
  | Some df => Ok df
  | None => Raise (KeyError [key])
  end.

(** [pd.DataFrame({label: values, ...})]: the columns must agree in length. *)
Definition make_frame (cols : list (string * column)) : result DataFrame :=
  match cols with
  | [] => Ok {| columns := []; nrows := 0 |}
  | (_, c) :: _ =>
      let n := length (col_values c) in
      if forallb (λ lc : string * column, (length (col_values lc.2) =? n)%nat) cols
      then Ok {| columns := cols; nrows := n |}
      else Raise ValueError
  end.

Definition thin_border : Border :=
  {| side_left := Some "thin"; side_right := Some "thin";
     side_top := Some "thin"; side_bottom := Some "thin" |}.
Definition centered : Alignment :=
  {| horizontal := Some "center"; vertical := Some "center" |}.
Definition solid (rgb : string) : PatternFill :=
  {| start_color := rgb; end_color := rgb; fill_type := "solid" |}.
Definition banding_fill : PatternFill := solid "F2F2F2".

(** [f"${v:,.2f}"] for a number; a string has no format code [f]. *)
Definition format_currency (v : scalar) : result string :=
  match v with
  | VInt z => Ok ("$" ++ format_f true 2 (float_of_Z z))
  | VFloat x => Ok ("$" ++ format_f true 2 x)
  | VStr _ => Raise ValueError
  | VNone => Raise TypeError
  end.

(** The loop of [create_data_sheet] over one column: [max_length] starts at
    0 and grows to the length of each rendering longer than it; a value
    whose rendering raises is passed over by the [except] clause. *)
Definition max_length_of (render : scalar → option string) (vals : list scalar) : Z :=
  foldl (λ max_length v,
           match render v with
           | Some s => if (len s >? max_length)%Z then len s else max_length
           | None => max_length
           end) 0%Z vals.

Definition adjusted_width (render : scalar → option string) (vals : list scalar) : Z :=
  Z.min (max_length_of render vals + 2) 50.

(** [ws.column_dimensions[letter].width = w] *)
Fixpoint set_width (letter : string) (w : Z) (dims : list (string * Z))
  : list (string * Z) :=
  match dims with
  | [] => [(letter, w)]
  | (l, w') :: dims' =>
      if String.eqb l letter then (l, w) :: dims'
      else (l, w') :: set_width letter w dims'
  end.

Section ExcelReportGenerator.

(** What the model takes from the environment: the rendering [str] gives a
    float, the clock read through [datetime.now().strftime(fmt)], and the
    draws of the sample-data generator. *)
Variable float_str : float → string.
Variable strftime_now : string → string.
Variable date_range : string → list string.
Variable randint : Z → Z → nat → list Z.
Variable uniform : float → float → nat → list float.
Variable choice : list string → nat → list string.

Variable config : Config.

(** [str(v)] *)
Definition str (v : scalar) : string :=
  match v with
  | VNone => "None"
  | VInt z => str_Z z
  | VFloat x => float_str x
  | VStr s => s
  end.

Definition generate_sample_data (report_type : string) : result Bundle :=
  if String.eqb report_type "daily" then
    let dates := date_range "D" in
    let n := length dates in
    sales_data ← make_frame
      [("Date", StrCol dates);
       ("Product_A", IntCol (randint 50 200 n));
       ("Product_B", IntCol (randint 30 150 n));
       ("Product_C", IntCol (randint 20 100 n));
       ("Total_Revenue", IntCol (randint 1000 5000 n))];
    customer_data ← make_frame
      [("Customer_ID", StrCol ((λ i, "CUST_" ++ pad_digits 4 (N.of_nat i)) <$> seq 1 100));
       ("Customer_Name", StrCol ((λ i, "Customer " ++ str_N (N.of_nat i)) <$> seq 1 100));
       ("Total_Orders", IntCol (randint 1 20 100));
       ("Total_Spent", IntCol (randint 100 10000 100));
       ("Category", StrCol (choice ["Premium"; "Standard"; "Basic"] 100))];
    Ok [("sales_data", sales_data); ("customer_data", customer_data)]
  else
    let weeks := date_range "W" in
    let n := length weeks in
    sales_data ← make_frame
      [("Week", StrCol weeks);
       ("Sales_Target", IntCol (randint 10000 20000 n));
       ("Actual_Sales", IntCol (randint 8000 22000 n));
       ("New_Customers", IntCol (randint 20 100 n));
       ("Customer_Retention", FloatCol (uniform 0.7 0.95 n))];
    let departments := ["Sales"; "Marketing"; "Support"; "Operations"] in
    customer_data ← make_frame
      [("Department", StrCol departments);
       ("Budget", IntCol [50000; 30000; 25000; 40000]%Z);
       ("Actual_Spend", IntCol (randint 20000 55000 (length departments)));
       ("Performance_Score", FloatCol (uniform 0.6 1.0 (length departments)));
       ("Team_Size", IntCol [10; 8; 12; 15]%Z)];
    Ok [("sales_data", sales_data); ("customer_data", customer_data)].

Definition _apply_header_style (worksheet : Worksheet) (row_num : nat)
    (col_range : string) : result Worksheet :=
  let header_fill := solid (header (colors config)) in
  let header_font :=
    {| bold := true; italic := false; color := Some "FFFFFF"; size := Some 12%Z |} in
  coords ← getitem_range (col_range ++ str_N (N.of_nat row_num));
  Ok (foldl (λ ws rc,
               update_cell (λ cell, set_border thin_border
                                      (set_alignment centered
                                         (set_font header_font
                                            (set_fill header_fill cell))))
                 rc.1 rc.2 ws)
        worksheet coords).

Definition format_data_cell (row : nat) (cell : Cell) : Cell :=
  let cell := set_alignment centered (set_border thin_border cell) in
  if (row mod 2 =? 0)%nat then set_fill banding_fill cell else cell.

Definition _apply_data_formatting (worksheet : Worksheet)
    (start_row end_row start_col end_col : nat) : Worksheet :=
  foldl (λ ws row,
           foldl (λ ws col, update_cell (format_data_cell row) row col ws)
             ws (range_incl start_col end_col))
    worksheet (range_incl start_row end_row).

(** The metric list of the ["daily"] branch. *)
Definition daily_metrics (sales_data customer_data : DataFrame)
  : result (list (string * scalar)) :=
  revenue ← getitem_col sales_data "Total_Revenue";
  let total_revenue := series_sum revenue in
  revenue ← getitem_col sales_data "Total_Revenue";
  avg_daily_revenue ← series_mean revenue;
  products ← getitem_cols sales_data ["Product_A"; "Product_B"; "Product_C"];
  top_product ← labelled_idxmax (frame_sum products);
  let total_customers := nrows customer_data in
  m1 ← format_currency total_revenue;
  m2 ← format_currency (VFloat avg_daily_revenue);
  category ← getitem_col customer_data "Category";
  let premium := getitem_mask customer_data (eq_scalar category "Premium") in
  Ok [("Total Revenue", VStr m1);
      ("Average Daily Revenue", VStr m2);
      ("Top Product", top_product);
      ("Total Customers", VInt (Z.of_nat total_customers));
      ("Premium Customers", VInt (Z.of_nat (nrows premium)))].

(** The metric list of the [else] branch. *)
Definition weekly_metrics (sales_data customer_data : DataFrame)
  : result (list (string * scalar)) :=
  actual ← getitem_col sales_data "Actual_Sales";
  let total_sales := series_sum actual in
  retention ← getitem_col sales_data "Customer_Retention";
  avg_performance ← series_mean retention;
  new_customers ← getitem_col sales_data "New_Customers";
  let total_new_customers := series_sum new_customers in
  m1 ← format_currency total_sales;
  let m2 := format_percent 1 avg_performance in
  score ← getitem_col customer_data "Performance_Score";
  best ← series_idxmax score;
  department ← loc customer_data best "Department";
  Ok [("Total Sales", VStr m1);
      ("Average Retention Rate", VStr m2);
      ("Total New Customers", total_new_customers);
      ("Best Department", department)].

Definition compute_metrics (report_type : string)
    (sales_data customer_data : DataFrame) : result (list (string * scalar)) :=
  if String.eqb report_type "daily" then daily_metrics sales_data customer_data
  else weekly_metrics sales_data customer_data.

Definition summary_title (report_type : string) : string :=
  company_name config ++ " - " ++ title report_type ++ " Report Summary".

Definition create_summary_sheet (workbook : Workbook) (data : Bundle)
    (report_type : string) : result Workbook :=
  let ws := create_sheet "Summary" in
  let ws := update_cell (set_value (VStr (summary_title report_type))) 1 1 ws in
  let ws := update_cell (set_font {| bold := true; italic := false; color := None;
                                     size := Some 16%Z |}) 1 1 ws in
  let ws := update_cell (set_alignment {| horizontal := Some "center";
                                          vertical := None |}) 1 1 ws in
  let ws := {| sheet_title := sheet_title ws; cells := cells ws;
               current_row := current_row ws;
               column_dimensions := column_dimensions ws;
               merged_cells := (merged_cells ws ++ ["A1:F1"])%list |} in
  let ws := update_cell (set_value (VStr ("Generated: " ++
                                          strftime_now (date_format config)))) 2 1 ws in
  let ws := update_cell (set_font {| bold := false; italic := true; color := None;
                                     size := None |}) 2 1 ws in
  sales_data ← getitem_dict data "sales_data";
  customer_data ← getitem_dict data "customer_data";
  let metrics_start_row := 4 in
  let ws := update_cell (set_value (VStr "Key Metrics")) metrics_start_row 1 ws in
  let ws := update_cell (set_font {| bold := true; italic := false; color := None;
                                     size := Some 14%Z |}) metrics_start_row 1 ws in
  metrics ← compute_metrics report_type sales_data customer_data;
  let ws :=
    foldl (λ ws imv,
             let i := metrics_start_row + 1 + imv.1 in
             let ws := update_cell (set_value (VStr imv.2.1)) i 1 ws in
             let ws := update_cell (set_value imv.2.2) i 2 ws in
             update_cell (set_font {| bold := true; italic := false; color := None;
                                      size := None |}) i 1 ws)
      ws (imap (λ i mv, (i, mv)) metrics) in
  let ws :=
    foldl (λ ws rc, update_cell (set_border thin_border) rc.1 rc.2 ws) ws
      (iter_rows (metrics_start_row + 1) (metrics_start_row + length metrics) 1 2) in
  Ok (workbook ++ [ws])%list.

(** The width loop of [create_data_sheet]: [ws.columns] creates the cells
    it visits; each column then gets its width. *)
Definition auto_adjust_widths (ws : Worksheet) : Worksheet :=
  let cols := ws_columns ws in
  let ws := foldl (λ ws col,
                     foldl (λ ws r, update_cell id r col.1 ws) ws col.2) ws cols in
  foldl (λ ws col,
           let column_letter := get_column_letter col.1 in
           let adjusted_width :=
             adjusted_width (λ v, Some (str v))
               ((λ r, value (cell_at ws r col.1)) <$> col.2) in
           {| sheet_title := sheet_title ws; cells := cells ws;
              current_row := current_row ws;
              column_dimensions :=
                set_width column_letter adjusted_width (column_dimensions ws);
              merged_cells := merged_cells ws |})
    ws cols.

Definition create_data_sheet (workbook : Workbook) (data : DataFrame)
    (sheet_name : string) : result Workbook :=
  let ws := create_sheet sheet_name in
  let ws := foldl (λ ws r, append r ws) ws (dataframe_to_rows data) in
  last ← getitem "ABCDEFGHIJKLMNOPQRSTUVWXYZ"
           (Z.of_nat (length (columns data)) - 1);
  ws ← _apply_header_style ws 1 ("A:" ++ String last "");
  let ws := _apply_data_formatting ws 2 (nrows data + 1) 1 (length (columns data)) in
  Ok (workbook ++ [auto_adjust_widths ws])%list.

(** [generate_report]: the path and the workbook handed to
    [self.workbook.save]; an exception leaves nothing saved. *)
Definition generate_report (report_type : string) (data : option Bundle)
  : result (string * Workbook) :=
  data ← match data with
         | None => generate_sample_data report_type
         | Some data => Ok data
         end;
  let workbook : Workbook := [] in
  workbook ← create_summary_sheet workbook data report_type;
  workbook ← foldl (λ acc item,
                      workbook ← acc;
                      let formatted_name := title (replace "_" " " item.1) in
                      create_data_sheet workbook item.2 formatted_name)
               (Ok workbook) data;
  let timestamp := strftime_now "%Y%m%d_%H%M%S" in
  let filename := report_type ++ "_report_" ++ timestamp ++ ".xlsx" in
  let filepath := path_join (output_directory config) filename in
  Ok (filepath, workbook).

End ExcelReportGenerator.

(** ** The configuration file *)

(** A JSON value, as [json.load] returns it. *)
Inductive json : Type :=
  | JNull
  | JBool (b : bool)
  | JNum (z : Z)
  | JStr (s : string)
  | JArr (items : list json)
  | JObj (members : list (string * json)).

(** A dict with string keys, in insertion order. *)
Abbreviation dict := (list (string * json)).

(** The files that hold a JSON object, by path: a file is kept as the
    object its text denotes, which is what [json.dump] followed by
    [json.load] gives back. *)
Abbreviation files := (gmap string dict).

Module Settings.

(** [d[k] = v]: the value of an existing key is replaced in place, a new
    key goes last. *)
Fixpoint setitem (k : string) (v : json) (d : dict) : dict :=
  match d with
  | [] => [(k, v)]
  | (k', v') :: d' =>
      if String.eqb k' k then (k', v) :: d' else (k', v') :: setitem k v d'
  end.

(** [d.update(u)] *)
Definition update (d u : dict) : dict :=
  foldl (λ d kv, setitem kv.1 kv.2 d) d u.

(** [d[k]] *)
Definition getitem (d : dict) (k : string) : result json :=
  match assoc k d with
  | Some v => Ok v
  | None => Raise (KeyError [k])
  end.

(** [v[k]] for a string key [k]: only a dict can be indexed by a string. *)
Definition subscript (v : json) (k : string) : result json :=
  match v with
  | JObj d => getitem d k
  | JNull | JBool _ | JNum _ | JStr _ | JArr _ => Raise TypeError
  end.

Definition default_config : dict :=
  [("company_name", JStr "Your Company Name");
   ("report_title", JStr "Automated Report");
   ("output_directory", JStr "reports");
   ("date_format", JStr "%Y-%m-%d");
   ("colors", JObj [("header", JStr "366092");
                    ("subheader", JStr "5B9BD5");
                    ("accent", JStr "70AD47")])].

(** [_load_config]: the configuration, and the files afterwards. *)
Definition _load_config (config_file : string) (fs : files) : dict * files :=
  match fs !! config_file with
  | Some user_config => (update default_config user_config, fs)
  | None => (default_config, <[config_file := default_config]> fs)
  end.

(** The generator object. *)
Record ExcelReportGenerator : Type := {
  config_file : string;
  config : dict;
  workbook : option Workbook
}.

Definition __init__ (config_file : string) (fs : files)
  : ExcelReportGenerator * files :=
  let (config, fs) := _load_config config_file fs in
  ({| config_file := config_file; config := config; workbook := None |}, fs).

(** [self.config['colors']['header']], the colour [_apply_header_style]
    fills the header with. *)
Definition header_color (config : dict) : result json :=
  colors ← getitem config "colors";
  subscript colors "header".

End Settings.

(** ** The setup script *)

Module Setup.

(** [create_config_file] of [setup_script.py]: the files afterwards and the
    lines printed. *)
Definition create_config_file (fs : files) : files * list string :=
  let out := ["⚙️ Creating configuration file..."] in
  let config : dict :=
    [("company_name", JStr "Your Company Name");
     ("report_title", JStr "Automated Report");
     ("output_directory", JStr "reports");
     ("date_format", JStr "%Y-%m-%d");
     ("colors", JObj [("header", JStr "366092");
                      ("subheader", JStr "5B9BD5");
                      ("accent", JStr "70AD47")]);
     ("email_settings", JObj [("smtp_server", JStr "smtp.gmail.com");
                              ("smtp_port", JNum 587);
                              ("sender_email", JStr "your_email@gmail.com");
                              ("recipients", JArr [JStr "manager@company.com"])]);
     ("report_schedule", JObj [("daily_time", JStr "09:00");
                               ("weekly_day", JStr "Monday");
                               ("weekly_time", JStr "08:00")])] in
  match fs !! "report_config.json" with
  | None =>
      (<["report_config.json" := config]> fs,
       out ++ ["✅ Configuration file created: report_config.json"])%list
  | Some _ => (fs, out ++ ["⚠️ Configuration file already exists"])%list
  end.

End Setup.

(** * Notions the statements use *)

Local Open Scope nat_scope.

Section Notions.

Variable float_str : float → string.
Variable strftime_now : string → string.
Variable date_range : string → list string.
Variable randint : Z → Z → nat → list Z.
Variable uniform : float → float → nat → list float.
Variable choice : list string → nat → list string.
Variable config : Config.

Implicit Types (m : gmap (nat * nat) Cell) (ws : Worksheet) (wb : Workbook).
Implicit Types (df : DataFrame) (data : Bundle).

(** ** Sheets *)

(** One update per coordinate of a list, the update chosen by the
    coordinate: the shape of every styling loop of the generator. *)
Definition apply_at (g : nat * nat → Cell → Cell) (coords : list (nat * nat)) m
  : gmap (nat * nat) Cell :=
  foldl (λ m rc, modify (g rc) rc m) m coords.

(** The sheet after a sequence of [append]s on a new sheet. *)
Definition appended (name : string) (rows : list (list scalar)) : Worksheet :=
  foldl (λ ws r, append r ws) (create_sheet name) rows.

(** The value [dataframe_to_rows] puts at sheet row [r] and column [c]:
    the label of column [c] in row 1, the entry of data row [r - 1] below. *)
Definition table_value (df : DataFrame) (r c : nat) : scalar :=
  match columns df !! (c - 1) with
  | Some (l, col) =>
      if decide (r = 1) then VStr l else default VNone (col_values col !! (r - 2))
  | None => VNone
  end.

Definition alphabet : string := "ABCDEFGHIJKLMNOPQRSTUVWXYZ".

(** The column the header styling ends at, for a frame of [m <= 26]
    columns: [m] itself, and 26 when [m = 0], where the index [-1] wraps
    around to the last letter. *)
Definition header_last_column (m : nat) : nat := if decide (m = 0) then 26 else m.

(** What [_apply_header_style] does to one cell. *)
Definition header_cell_style (cell : Cell) : Cell :=
  set_border thin_border
    (set_alignment centered
       (set_font {| bold := true; italic := false; color := Some "FFFFFF";
                    size := Some 12%Z |}
          (set_fill (solid (header (colors config))) cell))).

(** The cells of a data sheet when the styling loops are done. *)
Definition styled_cells df (name : string) : gmap (nat * nat) Cell :=
  apply_at (λ rc, format_data_cell rc.1)
    (iter_rows 2 (nrows df + 1) 1 (length (columns df)))
    (apply_at (λ _, header_cell_style)
       ((λ c, (1, c)) <$> range_incl 1 (header_last_column (length (columns df))))
       (cells (appended name (dataframe_to_rows df)))).

Definition styled_sheet df (name : string) : Worksheet :=
  with_cells (appended name (dataframe_to_rows df)) (styled_cells df name).

(** The coordinates [ws.columns] visits. *)
Definition column_coords ws : list (nat * nat) :=
  ws_columns ws ≫= λ col, (λ r, (r, col.1)) <$> col.2.

(** The width the loop computes for one column, read from a cell map. *)
Definition column_width_at m (col : nat * list nat) : Z :=
  adjusted_width (λ v, Some (str float_str v))
    ((λ r, value (default (new_cell VNone) (m !! (r, col.1)))) <$> col.2).

Definition assign_widths m (cols : list (nat * list nat)) (dims : list (string * Z))
  : list (string * Z) :=
  foldl (λ dims col, set_width (get_column_letter col.1) (column_width_at m col) dims)
    dims cols.

(** What one value adds to the width of its column: the length of its
    rendering, nothing when the rendering raises. *)
Definition rendered_length (render : scalar → option string) (v : scalar) : nat :=
  match render v with
  | Some s => String.length s
  | None => 0
  end.

(** The sheet [create_data_sheet] adds for a frame of at most 26 columns. *)
Definition data_sheet_of df (name : string) : Worksheet :=
  auto_adjust_widths float_str (styled_sheet df name).

(** Its extent: the header row and one row per data row, and the header
    range A:Z alone when the frame has no column. *)
Definition sheet_rows df : nat :=
  if decide (length (columns df) = 0) then 1 else S (nrows df).

Definition sheet_columns df : nat := header_last_column (length (columns df)).

(** The reading of C2 as it is worded: the even-numbered data rows carry
    the banding fill and the odd-numbered data rows carry none. *)
Definition even_data_rows_banded ws df : Prop :=
  ∀ k c, 1 ≤ k ≤ nrows df → 1 ≤ c ≤ length (columns df) →
    fill (cell_at ws (k + 1) c) = if Nat.even k then Some banding_fill else None.

(** ** Reports *)

(** The sheet name of a dataset key: [key.replace('_', ' ').title()]. *)
Definition humanize (key : string) : string := title (replace "_" " " key).

(** The Summary sheet once the metric list is known. *)
Definition summary_sheet_of (report_type : string) (metrics : list (string * scalar))
  : Worksheet :=
  let ws := create_sheet "Summary" in
  let ws := update_cell (set_value (VStr (summary_title config report_type))) 1 1 ws in
  let ws := update_cell (set_font {| bold := true; italic := false; color := None;
                                     size := Some 16%Z |}) 1 1 ws in
  let ws := update_cell (set_alignment {| horizontal := Some "center";
                                          vertical := None |}) 1 1 ws in
  let ws := {| sheet_title := sheet_title ws; cells := cells ws;
               current_row := current_row ws;
               column_dimensions := column_dimensions ws;
               merged_cells := (merged_cells ws ++ ["A1:F1"])%list |} in
  let ws := update_cell (set_value (VStr ("Generated: " ++
                                          strftime_now (date_format config)))) 2 1 ws in
  let ws := update_cell (set_font {| bold := false; italic := true; color := None;
                                     size := None |}) 2 1 ws in
  let ws := update_cell (set_value (VStr "Key Metrics")) 4 1 ws in
  let ws := update_cell (set_font {| bold := true; italic := false; color := None;
                                     size := Some 14%Z |}) 4 1 ws in
  let ws :=
    foldl (λ ws (imv : nat * (string * scalar)),
             let i := 4 + 1 + imv.1 in
             let ws := update_cell (set_value (VStr imv.2.1)) i 1 ws in
             let ws := update_cell (set_value imv.2.2) i 2 ws in
             update_cell (set_font {| bold := true; italic := false; color := None;
                                      size := None |}) i 1 ws)
      ws (imap (λ i mv, (i, mv)) metrics) in
  foldl (λ ws rc, update_cell (set_border thin_border) rc.1 rc.2 ws) ws
    (iter_rows (4 + 1) (4 + length metrics) 1 2).

(** The loop over the datasets: one sheet per dataset, in order, unless a
    frame has more than 26 columns. *)
Definition data_sheets_loop wb data : result Workbook :=
  foldl (λ (acc : result Workbook) (item : string * DataFrame),
           workbook ← acc;
           let formatted_name := title (replace "_" " " item.1) in
           create_data_sheet float_str config workbook item.2 formatted_name)
    (Ok wb) data.

Definition fits (item : string * DataFrame) : Prop := length (columns item.2) ≤ 26.

(** The dataset bundle [generate_report] works on. *)
Definition bundle_of (report_type : string) (data : option Bundle) : result Bundle :=
  match data with
  | None => generate_sample_data date_range randint uniform choice report_type
  | Some data => Ok data
  end.

Definition report_path (report_type : string) : string :=
  path_join (output_directory config)
    (report_type ++ "_report_" ++ strftime_now "%Y%m%d_%H%M%S" ++ ".xlsx").

End Notions.

(** ** Metrics and their failures *)

Definition is_numeric (c : column) : bool :=
  match c with
  | IntCol _ | FloatCol _ => true
  | StrCol _ => false
  end.

(** The columns the metric computation reads, by report type. *)
Definition required_sales (report_type : string) : list string :=
  if String.eqb report_type "daily"
  then ["Total_Revenue"; "Product_A"; "Product_B"; "Product_C"]
  else ["Actual_Sales"; "Customer_Retention"; "New_Customers"].

Definition required_customer (report_type : string) : list string :=
  if String.eqb report_type "daily" then ["Category"]
  else ["Performance_Score"; "Department"].

Definition missing_columns (df : DataFrame) (ls : list string) : list string :=
  List.filter (λ l, negb (is_Some_b (assoc l (columns df)))) ls.

(** The required columns two frames lack. *)
Definition missing_for (report_type : string) (sales_data customer_data : DataFrame)
  : list string :=
  (missing_columns sales_data (required_sales report_type)
   ++ missing_columns customer_data (required_customer report_type))%list.

(** The required datasets and columns a bundle lacks. *)
Definition absent (report_type : string) (data : Bundle) : list string :=
  match assoc "sales_data" data, assoc "customer_data" data with
  | Some s, Some c => missing_for report_type s c
  | Some s, None => "customer_data" :: missing_columns s (required_sales report_type)
  | None, Some c => "sales_data" :: missing_columns c (required_customer report_type)
  | None, None => ["sales_data"; "customer_data"]
  end%list.

(** The failure a computation over a bundle lacking [names] may end in: a
    [KeyError] that carries some of [names], or a [TypeError] or
    [ValueError] raised before the lookup was reached. *)
Definition fails_on {A} (names : list string) (r : result A) : Prop :=
  match r with
  | Ok _ => False
  | Raise (KeyError ks) => ks ≠ [] ∧ ks ⊆ names
  | Raise IndexError => False
  | Raise TypeError | Raise ValueError => True
  end.

(** A step that raises no [KeyError] and no [IndexError]. *)
Definition benign {A} (r : result A) : Prop :=
  match r with
  | Ok _ | Raise TypeError | Raise ValueError => True
  | Raise (KeyError _) | Raise IndexError => False
  end.

(** ** Sample inputs *)

(** A small daily bundle, and frames without columns, without rows and
    with 27 columns. *)
Definition sample_sales : DataFrame :=
  {| columns := [("Total_Revenue", IntCol [1200; 1800; 3000]%Z);
                 ("Product_A", IntCol [5; 7; 9]%Z);
                 ("Product_B", IntCol [8; 8; 8]%Z);
                 ("Product_C", IntCol [1; 2; 3]%Z)];
     nrows := 3 |}.

Definition sample_customers : DataFrame :=
  {| columns := [("Customer_Name", StrCol ["Ada"; "Grace"]);
                 ("Category", StrCol ["Premium"; "Basic"])];
     nrows := 2 |}.

Definition no_columns : DataFrame := {| columns := []; nrows := 0 |}.

Definition wide_frame : DataFrame :=
  {| columns := (λ i, (str_N (N.of_nat i), IntCol [])) <$> seq 0 27; nrows := 0 |}.

Definition no_rows : DataFrame :=
  {| columns := [("Region", StrCol []); ("Units", IntCol [])]; nrows := 0 |}.

Definition sample_bundle : Bundle :=
  [("sales_data", sample_sales); ("customer_data", sample_customers)].

Definition bundle_with_empty : Bundle :=
  [("sales_data", sample_sales); ("customer_data", sample_customers);
   ("extra", no_columns)].

(** An environment to run the generator in: a fixed clock, floats printed
    with six decimals, and a sample source that repeats its lower bound. *)
Definition sample_float_str (x : float) : string := format_f false 6 x.

Definition sample_clock (fmt : string) : string :=
  if String.eqb fmt "%Y%m%d_%H%M%S" then "20240115_093000" else "2024-01-15".

Definition sample_date_range (freq : string) : list string :=
  if String.eqb freq "D" then ["2024-01-14 09:30:00"; "2024-01-15 09:30:00"]
  else ["2024-01-07 09:30:00"; "2024-01-14 09:30:00"].

Definition sample_randint (lo hi : Z) (n : nat) : list Z := repeat lo n.

Definition sample_uniform (lo hi : float) (n : nat) : list float := repeat lo n.

Definition sample_choice (options : list string) (n : nat) : list string :=
  repeat (default "" (head options)) n.

Definition run_report (report_type : string) (data : option Bundle)
  : result (string * Workbook) :=
  generate_report sample_float_str sample_clock sample_date_range sample_randint
    sample_uniform sample_choice default_config report_type data.

Definition saved_path (r : result (string * Workbook)) : string :=
  match r with Ok (path, _) => path | Raise _ => "" end.

Definition saved_workbook (r : result (string * Workbook)) : Workbook :=
  match r with Ok (_, wb) => wb | Raise _ => [] end.

(** A run of the generator on the sample bundle, and its sheets. *)
Definition sample_run : result (string * Workbook) :=
  run_report "daily" (Some bundle_with_empty).

Definition sample_sheet (i : nat) : Worksheet :=
  default (create_sheet "") (saved_workbook sample_run !! i).

(** The frames of the two scenarios. *)
Definition scenario_sales : DataFrame :=
  {| columns := [("Total_Revenue", IntCol (repeat 3000%Z 31));
                 ("Product_A", IntCol (repeat 60%Z 31));
                 ("Product_B", IntCol (repeat 75%Z 31));
                 ("Product_C", IntCol (repeat 40%Z 31))];
     nrows := 31 |}.

Definition scenario_categories : list string :=
  (repeat "Premium" 40 ++ repeat "Standard" 35 ++ repeat "Basic" 25)%list.

Definition scenario_customers : DataFrame :=
  {| columns := [("Category", StrCol scenario_categories)]; nrows := 100 |}.

Definition weekly_sales : DataFrame :=
  {| columns := [("Actual_Sales", IntCol [9000; 12000]%Z);
                 ("New_Customers", IntCol [30; 45]%Z);
                 ("Customer_Retention", FloatCol [0.825; 0.825]%float)];
     nrows := 2 |}.

Definition weekly_departments : DataFrame :=
  {| columns := [("Department", StrCol ["Sales"; "Support"]);
                 ("Performance_Score", FloatCol [0.7; 0.9]%float)];
     nrows := 2 |}.

Definition no_departments : DataFrame :=
  {| columns := [("Performance_Score", FloatCol [])]; nrows := 0 |}.

(** ** Notions of the further properties *)

(** The values of a sheet, row by row, over its whole extent. *)
Definition sheet_values (ws : Worksheet) : list (list scalar) :=
  (λ r, (λ c, value (cell_at ws r c)) <$> range_incl 1 (max_column ws))
    <$> range_incl 1 (max_row ws).

(** Draws as numpy gives them: as many as were asked for, and no NaN
    between bounds that are numbers. *)
Definition well_formed_draws (randint : Z → Z → nat → list Z)
    (uniform : float → float → nat → list float)
    (choice : list string → nat → list string) : Prop :=
  (∀ lo hi n, length (randint lo hi n) = n)
  ∧ (∀ lo hi n, length (uniform lo hi n) = n)
  ∧ (∀ lo hi n, not_nan lo = true → not_nan hi = true →
       Forall (λ x, not_nan x = true) (uniform lo hi n))
  ∧ (∀ options n, length (choice options n) = n).

(** The cell the Summary sheet holds at a coordinate, if it holds one: the
    heading in A1, the generation date in A2, the caption in A4, and from
    row 5 on one row per metric, the label in column A and the value in
    column B. *)
Definition summary_layout (heading generated : string)
    (metrics : list (string * scalar)) (r c : nat) : option Cell :=
  if decide (r = 1 ∧ c = 1) then
    Some {| value := VStr heading;
            font := Some {| bold := true; italic := false; color := None;
                            size := Some 16%Z |};
            fill := None; border := None;
            alignment := Some {| horizontal := Some "center"; vertical := None |} |}
  else if decide (r = 2 ∧ c = 1) then
    Some {| value := VStr generated;
            font := Some {| bold := false; italic := true; color := None;
                            size := None |};
            fill := None; border := None; alignment := None |}
  else if decide (r = 4 ∧ c = 1) then
    Some {| value := VStr "Key Metrics";
            font := Some {| bold := true; italic := false; color := None;
                            size := Some 14%Z |};
            fill := None; border := None; alignment := None |}
  else if decide (5 ≤ r) then
    match metrics !! (r - 5) with
    | Some (label, v) =>
        if decide (c = 1) then
          Some {| value := VStr label;
                  font := Some {| bold := true; italic := false; color := None;
                                  size := None |};
                  fill := None; border := Some thin_border; alignment := None |}
        else if decide (c = 2) then
          Some {| value := v; font := None; fill := None;
                  border := Some thin_border; alignment := None |}
        else None
    | None => None
    end
  else None.

(** The Summary sheet of the sample bundle. *)
Definition sample_summary : Workbook :=
  match create_summary_sheet sample_clock default_config [] sample_bundle "daily" with
  | Ok wb => wb
  | Raise _ => []
  end.

(** A column [idxmax] finds a row in: integers, or floats that are not all
    NaN, and at least one entry. *)
Definition has_maximum (c : column) : Prop :=
  match c with
  | IntCol xs => xs ≠ []
  | FloatCol xs => Exists (λ x, not_nan x = true) xs
  | StrCol _ => False
  end.

(** Whether a character occurs in a string. *)
Fixpoint occurs (c : ascii) (s : string) : bool :=
  match s with
  | EmptyString => false
  | String c' s' => Ascii.eqb c' c || occurs c s'
  end.

(** The name of the workbook file. *)
Definition report_filename (strftime_now : string → string) (report_type : string)
  : string :=
  report_type ++ "_report_" ++ strftime_now "%Y%m%d_%H%M%S" ++ ".xlsx".

(** A configuration file that sets the company name and two of the three
    colours. *)
Definition sample_user_config : dict :=
  [("company_name", JStr "Acme");
   ("colors", JObj [("subheader", JStr "000000"); ("accent", JStr "FFFFFF")])].

(** * Properties *)

Lemma bind_Ok {A B} (a : A) (k : A → result B) : (x ← Ok a; k x) = k a.
Proof. reflexivity. Qed.

Lemma bind_Ok_inv {A B} (m : result A) (k : A → result B) b :
  (x ← m; k x) = Ok b → ∃ a, m = Ok a ∧ k a = Ok b.
Proof. destruct m as [a|e]; [by exists a|done]. Qed.

(** ** Cells under in-place updates *)

Section Cells.

Implicit Types (m : gmap (nat * nat) Cell) (rc : nat * nat) (ws : Worksheet).

Lemma modify_lookup_eq f rc m :
  modify f rc m !! rc = Some (f (default (new_cell VNone) (m !! rc))).
Proof. unfold modify. by rewrite lookup_insert_eq. Qed.

Lemma modify_lookup_ne f rc rc' m :
  rc ≠ rc' → modify f rc m !! rc' = m !! rc'.
Proof. intros. unfold modify. by rewrite lookup_insert_ne. Qed.

Lemma apply_at_notin g coords m rc :
  rc ∉ coords → apply_at g coords m !! rc = m !! rc.
Proof.
  revert m. induction coords as [|x coords IH]; intros m Hnotin; [done|].
  apply not_elem_of_cons in Hnotin as [Hne Hnotin]. simpl.
  rewrite (IH _ Hnotin). by apply modify_lookup_ne.
Qed.

Lemma apply_at_in g coords m rc :
  NoDup coords → rc ∈ coords →
  apply_at g coords m !! rc = Some (g rc (default (new_cell VNone) (m !! rc))).
Proof.
  revert m. induction coords as [|x coords IH]; intros m Hnd Hin.
  { by apply elem_of_nil in Hin. }
  apply NoDup_cons in Hnd as [Hx Hnd]. simpl.
  apply elem_of_cons in Hin as [->|Hin].
  - rewrite apply_at_notin by done. apply modify_lookup_eq.
  - rewrite (IH _ Hnd Hin). rewrite modify_lookup_ne; [done|].
    intros ->. contradiction.
Qed.

Lemma apply_at_is_Some g coords m rc :
  is_Some (apply_at g coords m !! rc) ↔ rc ∈ coords ∨ is_Some (m !! rc).
Proof.
  revert m. induction coords as [|x coords IH]; intros m; simpl.
  { split; [by right|]. intros [H|H]; [by apply elem_of_nil in H|done]. }
  rewrite IH, elem_of_cons. unfold modify.
  destruct (decide (x = rc)) as [->|Hne].
  - rewrite lookup_insert_eq. split; [by left; left | by eauto].
  - rewrite lookup_insert_ne by done. split.
    + intros [?|?]; eauto.
    + intros [[->|?]|?]; [done|eauto..].
Qed.

(** A worksheet loop that updates one cell per step acts on the cell map
    alone. *)
Lemma foldl_update_cells {A} (f : A → Cell → Cell) (pos : A → nat * nat) l ws :
  foldl (λ ws a, update_cell (f a) (pos a).1 (pos a).2 ws) ws l
  = with_cells ws (foldl (λ m a, modify (f a) (pos a) m) (cells ws) l).
Proof.
  revert ws. induction l as [|a l IH]; intros ws; simpl.
  { by destruct ws. }
  rewrite IH. unfold update_cell, with_cells. simpl. by destruct (pos a).
Qed.

Lemma foldl_bind {A B C} (f : A → C → A) (g : B → list C) a (l : list B) :
  foldl f a (l ≫= g) = foldl (λ a x, foldl f a (g x)) a l.
Proof.
  revert a. induction l as [|x l IH]; intros a; [done|].
  change ((x :: l) ≫= g) with (g x ++ (l ≫= g))%list.
  by rewrite foldl_app, IH.
Qed.

Lemma elem_of_range_incl a b k : k ∈ range_incl a b ↔ a ≤ k ≤ b.
Proof. unfold range_incl. rewrite elem_of_seq. lia. Qed.

Lemma elem_of_iter_rows r1 r2 c1 c2 r c :
  (r, c) ∈ iter_rows r1 r2 c1 c2 ↔ r1 ≤ r ≤ r2 ∧ c1 ≤ c ≤ c2.
Proof.
  unfold iter_rows. rewrite list_elem_of_bind. split.
  - intros (r' & Hin & Hr). apply list_elem_of_fmap in Hin as (c' & Heq & Hc).
    inversion Heq; subst. by rewrite <-!elem_of_range_incl.
  - intros [Hr Hc]. exists r. rewrite elem_of_range_incl. split; [|done].
    apply list_elem_of_fmap. exists c. by rewrite elem_of_range_incl.
Qed.

Lemma NoDup_iter_rows r1 r2 c1 c2 : NoDup (iter_rows r1 r2 c1 c2).
Proof.
  unfold iter_rows. apply NoDup_bind.
  - intros r r' rc _ _ Hin Hin'.
    apply list_elem_of_fmap in Hin as (? & -> & _).
    apply list_elem_of_fmap in Hin' as (? & Heq & _). by inversion Heq.
  - intros r _. apply NoDup_fmap_2; [|apply NoDup_seq]. by intros ?? [=].
  - apply NoDup_seq.
Qed.

End Cells.

(** ** Rows appended to a sheet *)

Section Append.

Implicit Types (m : gmap (nat * nat) Cell) (ws : Worksheet).

Lemma insert_row_lookup m R (row : list scalar) r c :
  foldl (λ m (jv : nat * scalar), <[(R, S jv.1) := new_cell jv.2]> m) m
    (imap (λ j v, (j, v)) row) !! (r, c)
  = if decide (r = R ∧ 1 ≤ c ≤ length row) then new_cell <$> row !! (c - 1)
    else m !! (r, c).
Proof.
  induction row as [|v row IH] using rev_ind; simpl.
  { case_decide; [lia|done]. }
  rewrite imap_app, foldl_app. simpl. rewrite length_app. simpl.
  replace (length row + 0) with (length row) by lia.
  destruct (decide ((R, S (length row)) = (r, c))) as [Heq|Hne].
  - inversion Heq; subst. rewrite lookup_insert_eq.
    rewrite decide_True by lia.
    replace (S (length row) - 1) with (length row) by lia.
    by rewrite lookup_app_r, Nat.sub_diag by lia.
  - rewrite lookup_insert_ne by done. rewrite IH.
    destruct (decide (r = R ∧ 1 ≤ c ≤ length row)) as [[-> Hc]|Hn].
    + rewrite decide_True by lia. by rewrite lookup_app_l by lia.
    + rewrite decide_False; [done|].
      intros [-> Hc]. apply Hn. split; [done|].
      assert (c ≠ S (length row)) by congruence. lia.
Qed.

Lemma append_lookup row ws r c :
  cells (append row ws) !! (r, c)
  = if decide (r = S (current_row ws) ∧ 1 ≤ c ≤ length row)
    then new_cell <$> row !! (c - 1)
    else cells ws !! (r, c).
Proof. unfold append. simpl. apply insert_row_lookup. Qed.

Lemma appended_fields name rows :
  sheet_title (appended name rows) = name
  ∧ current_row (appended name rows) = length rows
  ∧ column_dimensions (appended name rows) = []
  ∧ merged_cells (appended name rows) = [].
Proof.
  unfold appended. induction rows as [|row rows IH] using rev_ind; [done|].
  rewrite foldl_snoc, length_app. simpl. destruct IH as (? & ? & ? & ?).
  repeat split; [done|lia|done|done].
Qed.

Lemma appended_lookup name rows r c :
  cells (appended name rows) !! (r, c)
  = if decide (1 ≤ r ∧ 1 ≤ c)
    then row ← rows !! (r - 1); new_cell <$> row !! (c - 1)
    else None.
Proof.
  induction rows as [|row rows IH] using rev_ind.
  { unfold appended. simpl. rewrite lookup_empty. by case_decide. }
  pose proof (appended_fields name rows) as (_ & Hcur & _).
  unfold appended in *. rewrite foldl_snoc, append_lookup, Hcur, IH.
  destruct (decide (r = S (length rows) ∧ 1 ≤ c ≤ length row)) as [[-> Hc]|Hn].
  - rewrite decide_True by lia.
    replace (S (length rows) - 1) with (length rows) by lia.
    by rewrite lookup_app_r, Nat.sub_diag by lia.
  - case_decide as Hrc; [|done].
    destruct (decide (r - 1 < length rows)) as [Hlt|Hge].
    + by rewrite lookup_app_l by lia.
    + rewrite (lookup_ge_None_2 rows) by lia.
      destruct (decide (r - 1 = length rows)) as [Heq|Hne].
      * rewrite lookup_app_r, Heq, Nat.sub_diag by lia. simpl.
        rewrite lookup_ge_None_2; [done|]. lia.
      * rewrite lookup_ge_None_2; [done|]. rewrite length_app. simpl. lia.
Qed.

End Append.

(** ** The table a frame writes *)

Lemma frame_rows_lookup df r c :
  1 ≤ r → 1 ≤ c →
  (row ← dataframe_to_rows df !! (r - 1); new_cell <$> row !! (c - 1))
  = if decide (r ≤ S (nrows df) ∧ c ≤ length (columns df))
    then Some (new_cell (table_value df r c))
    else None.
Proof.
  intros Hr Hc. unfold dataframe_to_rows, table_value, labels.
  destruct (decide (r = 1)) as [->|Hr1]; simpl.
  - rewrite !list_lookup_fmap.
    destruct (columns df !! (c - 1)) as [[l col]|] eqn:Hcol; simpl.
    + apply lookup_lt_Some in Hcol. by rewrite decide_True by lia.
    + apply lookup_ge_None in Hcol. by rewrite decide_False by lia.
  - destruct r as [|[|r]]; [lia|lia|]. simpl. rewrite Nat.sub_0_r.
    rewrite list_lookup_fmap.
    destruct (decide (r < nrows df)) as [Hlt|Hge].
    + rewrite lookup_seq_lt by done. simpl. unfold row_values.
      rewrite list_lookup_fmap.
      destruct (columns df !! (c - 1)) as [[l col]|] eqn:Hcol; simpl.
      * apply lookup_lt_Some in Hcol. by rewrite decide_True by lia.
      * apply lookup_ge_None in Hcol. by rewrite decide_False by lia.
    + rewrite lookup_seq_ge by lia. simpl. by rewrite decide_False by lia.
Qed.

(** The cells of the sheet once the frame is appended: the rectangle of
    [nrows + 1] rows and one column per frame column. *)
Lemma appended_frame_lookup name df r c :
  cells (appended name (dataframe_to_rows df)) !! (r, c)
  = if decide (1 ≤ r ≤ S (nrows df) ∧ 1 ≤ c ≤ length (columns df))
    then Some (new_cell (table_value df r c))
    else None.
Proof.
  rewrite appended_lookup.
  destruct (decide (1 ≤ r ∧ 1 ≤ c)) as [[Hr Hc]|Hn].
  - rewrite frame_rows_lookup by done. repeat case_decide; done || lia.
  - by rewrite decide_False by lia.
Qed.

(** ** The header range *)

Lemma alphabet_getitem m :
  m ≤ 26 →
  getitem alphabet (Z.of_nat m - 1) = Ok (ascii_of_nat (64 + header_last_column m)).
Proof.
  intros Hm. do 27 (destruct m as [|m]; [vm_compute; reflexivity|]). lia.
Qed.

Lemma alphabet_getitem_out m :
  26 < m → getitem alphabet (Z.of_nat m - 1) = Raise IndexError.
Proof.
  intros Hm. unfold getitem.
  assert ((Z.of_nat m - 1 <? 0)%Z = false) as H by lia.
  rewrite H. cbv zeta. rewrite H.
  replace (Z.to_nat (Z.of_nat m - 1)) with (26 + (m - 27)) by lia.
  reflexivity.
Qed.

Lemma header_range_coords k :
  1 ≤ k ≤ 26 →
  getitem_range (("A:" ++ String (ascii_of_nat (64 + k)) "") ++ str_N (N.of_nat 1))%string
  = Ok ((λ c, (1, c)) <$> range_incl 1 k).
Proof.
  intros Hk. destruct k as [|k]; [lia|].
  do 26 (destruct k as [|k]; [vm_compute; reflexivity|]). lia.
Qed.

(** ** The data sheet of one frame *)

Section DataSheet.

Variable float_str : float → string.
Variable config : Config.

Local Abbreviation header_cell_style := (header_cell_style config).
Local Abbreviation styled_cells := (styled_cells config).
Local Abbreviation styled_sheet := (styled_sheet config).

Implicit Types (m : gmap (nat * nat) Cell) (ws : Worksheet) (df : DataFrame).

Lemma foldl_ext_eq {A B} (f g : A → B → A) a (l : list B) :
  (∀ a x, f a x = g a x) → foldl f a l = foldl g a l.
Proof.
  intros Hfg. revert a. induction l as [|x l IH]; intros a; [done|].
  simpl. by rewrite Hfg, IH.
Qed.

Lemma data_formatting_cells ws sr er sc ec :
  _apply_data_formatting ws sr er sc ec
  = with_cells ws (apply_at (λ rc, format_data_cell rc.1)
                     (iter_rows sr er sc ec) (cells ws)).
Proof.
  unfold apply_at.
  rewrite <-(foldl_update_cells (λ rc, format_data_cell rc.1) id).
  unfold iter_rows. rewrite foldl_bind. unfold _apply_data_formatting.
  apply foldl_ext_eq. intros a r. by rewrite foldl_fmap.
Qed.

Lemma header_style_cells ws k :
  1 ≤ k ≤ 26 →
  _apply_header_style config ws 1 ("A:" ++ String (ascii_of_nat (64 + k)) "")
  = Ok (with_cells ws (apply_at (λ _, header_cell_style)
                         ((λ c, (1, c)) <$> range_incl 1 k) (cells ws))).
Proof.
  intros Hk. unfold _apply_header_style.
  rewrite (header_range_coords k Hk), bind_Ok. f_equal.
  apply (foldl_update_cells (λ _, header_cell_style) id).
Qed.

(** [create_data_sheet] either stops at the letter lookup or appends one
    sheet, which does not depend on the sheets before it. *)
Lemma create_data_sheet_ok wb df name :
  length (columns df) ≤ 26 →
  create_data_sheet float_str config wb df name
  = Ok (wb ++ [auto_adjust_widths float_str (styled_sheet df name)])%list.
Proof.
  intros Hm. unfold create_data_sheet. fold alphabet.
  rewrite (alphabet_getitem _ Hm), bind_Ok.
  fold (appended name (dataframe_to_rows df)).
  rewrite header_style_cells by (unfold header_last_column; case_decide; lia).
  rewrite bind_Ok, data_formatting_cells. reflexivity.
Qed.

Lemma create_data_sheet_raise wb df name :
  26 < length (columns df) →
  create_data_sheet float_str config wb df name = Raise IndexError.
Proof.
  intros Hm. unfold create_data_sheet. fold alphabet.
  by rewrite (alphabet_getitem_out _ Hm).
Qed.

End DataSheet.

(** ** The width loop *)

Section Widths.

Variable float_str : float → string.

Local Abbreviation column_width_at := (column_width_at float_str).
Local Abbreviation assign_widths := (assign_widths float_str).

Implicit Types (m : gmap (nat * nat) Cell) (ws : Worksheet).

Lemma widths_fold cols ws :
  foldl (λ ws (col : nat * list nat),
           {| sheet_title := sheet_title ws; cells := cells ws;
              current_row := current_row ws;
              column_dimensions :=
                set_width (get_column_letter col.1)
                  (adjusted_width (λ v, Some (str float_str v))
                     ((λ r, value (cell_at ws r col.1)) <$> col.2))
                  (column_dimensions ws);
              merged_cells := merged_cells ws |}) ws cols
  = {| sheet_title := sheet_title ws; cells := cells ws;
       current_row := current_row ws;
       column_dimensions := assign_widths (cells ws) cols (column_dimensions ws);
       merged_cells := merged_cells ws |}.
Proof.
  revert ws. induction cols as [|col cols IH]; intros ws.
  { by destruct ws. }
  cbn [foldl]. rewrite IH. reflexivity.
Qed.

Lemma auto_adjust_widths_eq ws :
  auto_adjust_widths float_str ws
  = {| sheet_title := sheet_title ws;
       cells := apply_at (λ _, id) (column_coords ws) (cells ws);
       current_row := current_row ws;
       column_dimensions :=
         assign_widths (apply_at (λ _, id) (column_coords ws) (cells ws))
           (ws_columns ws) (column_dimensions ws);
       merged_cells := merged_cells ws |}.
Proof.
  unfold auto_adjust_widths. cbv zeta. rewrite widths_fold.
  assert (foldl (λ ws (col : nat * list nat),
                   foldl (λ ws r, update_cell id r col.1 ws) ws col.2)
            ws (ws_columns ws)
          = with_cells ws (apply_at (λ _, id) (column_coords ws) (cells ws))) as ->.
  { unfold apply_at, column_coords.
    rewrite <-(foldl_update_cells (λ _, id) id), foldl_bind.
    apply foldl_ext_eq. intros a col. by rewrite foldl_fmap. }
  reflexivity.
Qed.

(** Creating the cells [ws.columns] visits changes no cell that is read. *)
Lemma ensure_default coords m rc :
  default (new_cell VNone) (apply_at (λ _, id) coords m !! rc)
  = default (new_cell VNone) (m !! rc).
Proof.
  revert m. induction coords as [|x coords IH]; intros m; [done|].
  simpl. rewrite IH. destruct (decide (x = rc)) as [->|Hne].
  - by rewrite modify_lookup_eq.
  - by rewrite modify_lookup_ne.
Qed.

Lemma auto_adjust_widths_cell_at ws r c :
  cell_at (auto_adjust_widths float_str ws) r c = cell_at ws r c.
Proof. rewrite auto_adjust_widths_eq. unfold cell_at. simpl. apply ensure_default. Qed.

Lemma auto_adjust_widths_title ws :
  sheet_title (auto_adjust_widths float_str ws) = sheet_title ws.
Proof. by rewrite auto_adjust_widths_eq. Qed.

(** Assigning widths to columns with distinct letters lists them in
    order. *)
Lemma set_width_fresh k w (dims : list (string * Z)) :
  k ∉ dims.*1 → set_width k w dims = (dims ++ [(k, w)])%list.
Proof.
  induction dims as [|[l w'] dims IH]; intros Hk; [done|].
  simpl in *. apply not_elem_of_cons in Hk as [Hne Hk].
  destruct (String.eqb_spec l k) as [->|_]; [done|]. by rewrite IH.
Qed.

Lemma assign_widths_fresh m cols dims :
  NoDup (get_column_letter <$> cols.*1) →
  (∀ col, col ∈ cols → get_column_letter col.1 ∉ dims.*1) →
  assign_widths m cols dims
  = (dims ++ ((λ col, (get_column_letter col.1, column_width_at m col)) <$> cols))%list.
Proof.
  revert dims. induction cols as [|col cols IH]; intros dims Hnd Hfresh.
  { simpl. by rewrite app_nil_r. }
  simpl in Hnd. apply NoDup_cons in Hnd as [Hcol Hnd].
  unfold assign_widths in *. cbn [foldl].
  rewrite set_width_fresh by (apply Hfresh; left).
  rewrite IH; [by rewrite <-app_assoc|done|].
  intros col' Hin. rewrite fmap_app, elem_of_app. intros [Hd|Hd].
  - by eapply Hfresh; [right|].
  - simpl in Hd. apply list_elem_of_singleton in Hd. apply Hcol. rewrite <-Hd.
    apply list_elem_of_fmap. exists col'.1. split; [done|].
    by apply list_elem_of_fmap_2.
Qed.

Lemma get_column_letter_small c :
  1 ≤ c ≤ 26 → get_column_letter c = String (ascii_of_nat (64 + c)) "".
Proof.
  intros Hc. destruct c as [|c]; [lia|].
  do 26 (destruct c as [|c]; [vm_compute; reflexivity|]). lia.
Qed.

Lemma NoDup_column_letters k :
  k ≤ 26 → NoDup (get_column_letter <$> range_incl 1 k).
Proof.
  intros Hk. apply NoDup_fmap_2_strong; [|apply NoDup_seq].
  intros c c' Hc Hc' Heq.
  apply elem_of_range_incl in Hc, Hc'.
  rewrite !get_column_letter_small in Heq by lia.
  inversion Heq as [Ha].
  apply (f_equal nat_of_ascii) in Ha.
  rewrite !nat_ascii_embedding in Ha by lia. lia.
Qed.

End Widths.

(** ** Dimensions of a sheet whose cells fill a rectangle *)

Lemma rect_dims (ws : Worksheet) R C :
  1 ≤ R → 1 ≤ C →
  (∀ r c, is_Some (cells ws !! (r, c)) ↔ 1 ≤ r ≤ R ∧ 1 ≤ c ≤ C) →
  max_row ws = R ∧ max_column ws = C.
Proof.
  intros HR HC Hdom.
  destruct (proj2 (Hdom R C)) as [x Hx]; [lia|].
  apply elem_of_map_to_list in Hx.
  assert (∀ (p : nat * nat → nat) (bound : nat),
            p (R, C) = bound →
            (∀ r c, is_Some (cells ws !! (r, c)) → p (r, c) ≤ bound) →
            match (λ kv : nat * nat * Cell, p kv.1) <$> map_to_list (cells ws) with
            | [] => 1
            | l => max_list l
            end = bound) as Hmax.
  { intros p bound Hp Hle.
    set (l := (λ kv : nat * nat * Cell, p kv.1) <$> map_to_list (cells ws)).
    assert (bound ∈ l) as Hin.
    { apply list_elem_of_fmap. exists ((R, C), x). by split. }
    assert (l ≠ []) as Hne by (intros Hnil; rewrite Hnil in Hin; by apply elem_of_nil in Hin).
    assert (max_list l ≤ bound) as Hub.
    { pose proof (max_list_elem_of l Hne) as Hm.
      apply list_elem_of_fmap in Hm as ([[r c] y] & -> & Hy).
      apply elem_of_map_to_list in Hy. apply Hle. by exists y. }
    pose proof (max_list_elem_of_le _ _ Hin).
    destruct l; [done|]. lia. }
  split.
  - apply (Hmax fst); [done|]. intros r c H. apply Hdom in H. simpl. lia.
  - apply (Hmax snd); [done|]. intros r c H. apply Hdom in H. simpl. lia.
Qed.

(** ** The column width as a maximum *)

Lemma max_length_of_max render vals :
  max_length_of render vals = Z.of_nat (max_list (rendered_length render <$> vals)).
Proof.
  unfold max_length_of.
  assert (∀ a, (0 ≤ a)%Z →
            foldl (λ max_length v,
                     match render v with
                     | Some s => if (len s >? max_length)%Z then len s else max_length
                     | None => max_length
                     end) a vals
            = Z.max a (Z.of_nat (max_list (rendered_length render <$> vals)))) as H.
  { induction vals as [|v vals IH]; intros a Ha; [simpl; lia|].
    rewrite fmap_cons. change (max_list (?x :: ?l)) with (x `max` max_list l).
    cbn [foldl]. unfold rendered_length at 1. destruct (render v) as [s|].
    - unfold len. destruct (Z.gtb_spec (Z.of_nat (String.length s)) a).
      + rewrite IH by lia. lia.
      + rewrite IH by lia. lia.
    - rewrite IH by lia. lia. }
  rewrite H by lia. lia.
Qed.

Lemma adjusted_width_spec render vals :
  adjusted_width render vals
  = Z.min 50 (2 + Z.of_nat (max_list (rendered_length render <$> vals))).
Proof. unfold adjusted_width. rewrite max_length_of_max. lia. Qed.

(** ** The finished data sheet *)

Section FinishedSheet.

Variable float_str : float → string.
Variable config : Config.

Local Abbreviation data_sheet_of := (data_sheet_of float_str config).

Implicit Types (df : DataFrame) (ws : Worksheet).

Lemma header_coords_elem k r c :
  (r, c) ∈ (λ c, (1, c)) <$> range_incl 1 k ↔ r = 1 ∧ 1 ≤ c ≤ k.
Proof.
  rewrite list_elem_of_fmap. split.
  - intros (c' & Heq & Hc). inversion Heq; subst. by apply elem_of_range_incl in Hc.
  - intros [-> Hc]. exists c. by rewrite elem_of_range_incl.
Qed.

Lemma NoDup_header_coords k : NoDup ((λ c, (1, c)) <$> range_incl 1 k).
Proof. apply NoDup_fmap_2; [by intros ?? [=]|apply NoDup_seq]. Qed.

Lemma styled_data_cell df name r c :
  2 ≤ r ≤ nrows df + 1 → 1 ≤ c ≤ length (columns df) →
  styled_cells config df name !! (r, c)
  = Some (format_data_cell r (new_cell (table_value df r c))).
Proof.
  intros Hr Hc. unfold styled_cells.
  rewrite apply_at_in; [|apply NoDup_iter_rows|by apply elem_of_iter_rows].
  rewrite apply_at_notin by (rewrite header_coords_elem; lia).
  rewrite appended_frame_lookup, decide_True by lia. done.
Qed.

Lemma styled_header_cell df name c :
  1 ≤ c ≤ sheet_columns df →
  styled_cells config df name !! (1, c)
  = Some (header_cell_style config (new_cell (table_value df 1 c))).
Proof.
  intros Hc. unfold styled_cells.
  rewrite apply_at_notin by (rewrite elem_of_iter_rows; lia).
  rewrite apply_at_in; [|apply NoDup_header_coords|by apply header_coords_elem].
  rewrite appended_frame_lookup. unfold sheet_columns, header_last_column in Hc.
  case_decide as Hm.
  - rewrite decide_False by lia. simpl. unfold table_value.
    rewrite lookup_ge_None_2 by lia. done.
  - rewrite decide_True by lia. done.
Qed.

Lemma styled_cells_dom df name r c :
  is_Some (styled_cells config df name !! (r, c))
  ↔ 1 ≤ r ≤ sheet_rows df ∧ 1 ≤ c ≤ sheet_columns df.
Proof.
  unfold styled_cells. rewrite !apply_at_is_Some, elem_of_iter_rows, header_coords_elem.
  rewrite appended_frame_lookup.
  unfold sheet_rows, sheet_columns, header_last_column.
  destruct (decide (length (columns df) = 0)) as [Hm|Hm].
  - rewrite decide_False by lia. split.
    + intros [?|[?|[? ?]]]; [lia|lia|done].
    + intros ?. right; left. lia.
  - split.
    + intros [?|[?|H]]; [lia|lia|]. case_decide; [lia|by destruct H].
    + intros ?. right; right. by rewrite decide_True by lia.
Qed.

Lemma styled_sheet_dims df name :
  max_row (styled_sheet config df name) = sheet_rows df
  ∧ max_column (styled_sheet config df name) = sheet_columns df.
Proof.
  apply rect_dims.
  - unfold sheet_rows. case_decide; lia.
  - unfold sheet_columns, header_last_column. case_decide; lia.
  - intros r c. apply styled_cells_dom.
Qed.

Lemma styled_sheet_columns df name :
  ws_columns (styled_sheet config df name)
  = (λ c, (c, range_incl 1 (sheet_rows df))) <$> range_incl 1 (sheet_columns df).
Proof.
  unfold ws_columns. destruct (styled_sheet_dims df name) as [-> ->].
  unfold styled_sheet. simpl.
  destruct (appended_fields name (dataframe_to_rows df)) as (_ & -> & _).
  done.
Qed.

Lemma data_sheet_title df name : sheet_title (data_sheet_of df name) = name.
Proof.
  unfold data_sheet_of. rewrite auto_adjust_widths_title. unfold styled_sheet. simpl.
  by destruct (appended_fields name (dataframe_to_rows df)) as (-> & _).
Qed.

Lemma data_sheet_cell_at df name r c :
  cell_at (data_sheet_of df name) r c
  = default (new_cell VNone) (styled_cells config df name !! (r, c)).
Proof. unfold data_sheet_of. by rewrite auto_adjust_widths_cell_at. Qed.

Lemma data_sheet_dom df name r c :
  is_Some (cells (data_sheet_of df name) !! (r, c))
  ↔ 1 ≤ r ≤ sheet_rows df ∧ 1 ≤ c ≤ sheet_columns df.
Proof.
  unfold data_sheet_of. rewrite auto_adjust_widths_eq. simpl.
  rewrite apply_at_is_Some. unfold column_coords.
  rewrite styled_sheet_columns, styled_cells_dom. split; [|by right].
  intros [Hin|?]; [|done].
  apply list_elem_of_bind in Hin as ([c' rs] & Hin & Hcol).
  apply list_elem_of_fmap in Hcol as (c'' & [= -> ->] & Hc).
  apply list_elem_of_fmap in Hin as (r' & [= -> ->] & Hr).
  by rewrite <-!elem_of_range_incl.
Qed.

Lemma data_sheet_dims df name :
  max_row (data_sheet_of df name) = sheet_rows df
  ∧ max_column (data_sheet_of df name) = sheet_columns df.
Proof.
  apply rect_dims.
  - unfold sheet_rows. case_decide; lia.
  - unfold sheet_columns, header_last_column. case_decide; lia.
  - intros r c. apply data_sheet_dom.
Qed.

(** The widths the loop leaves: one per column, in column order. *)
Lemma data_sheet_widths df name :
  length (columns df) ≤ 26 →
  column_dimensions (data_sheet_of df name)
  = (λ c, (get_column_letter c,
           adjusted_width (λ v, Some (str float_str v))
             ((λ r, value (cell_at (data_sheet_of df name) r c))
                <$> range_incl 1 (sheet_rows df))))
      <$> range_incl 1 (sheet_columns df).
Proof.
  intros Hm. unfold data_sheet_of at 1. rewrite auto_adjust_widths_eq. simpl.
  destruct (appended_fields name (dataframe_to_rows df)) as (_ & _ & -> & _).
  rewrite styled_sheet_columns, assign_widths_fresh.
  - simpl. rewrite <-list_fmap_compose. apply list_fmap_ext. intros _ c _. simpl.
    f_equal. unfold column_width_at. simpl. f_equal.
    apply list_fmap_ext. intros _ r _.
    unfold data_sheet_of. by rewrite auto_adjust_widths_cell_at, ensure_default.
  - rewrite <-!list_fmap_compose.
    apply (NoDup_column_letters (sheet_columns df)).
    unfold sheet_columns, header_last_column. case_decide; lia.
  - intros col _. simpl. apply not_elem_of_nil.
Qed.

End FinishedSheet.

(** ** The whole report *)

Section Report.

Variable float_str : float → string.
Variable strftime_now : string → string.
Variable date_range : string → list string.
Variable randint : Z → Z → nat → list Z.
Variable uniform : float → float → nat → list float.
Variable choice : list string → nat → list string.
Variable config : Config.

Local Abbreviation create_summary_sheet := (create_summary_sheet strftime_now config).
Local Abbreviation create_data_sheet := (create_data_sheet float_str config).
Local Abbreviation generate_sample_data := (generate_sample_data date_range randint uniform choice).
Local Abbreviation generate_report :=
  (generate_report float_str strftime_now date_range randint uniform choice config).
Local Abbreviation data_sheet_of := (data_sheet_of float_str config).
Local Abbreviation summary_sheet_of := (summary_sheet_of strftime_now config).
Local Abbreviation data_sheets_loop := (data_sheets_loop float_str config).
Local Abbreviation bundle_of := (bundle_of date_range randint uniform choice).
Local Abbreviation report_path := (report_path strftime_now config).

Implicit Types (data : Bundle) (wb : Workbook) (ws : Worksheet) (df : DataFrame).

Lemma create_summary_sheet_eq wb data report_type :
  create_summary_sheet wb data report_type
  = (sales_data ← getitem_dict data "sales_data";
     customer_data ← getitem_dict data "customer_data";
     metrics ← compute_metrics report_type sales_data customer_data;
     Ok (wb ++ [summary_sheet_of report_type metrics])%list).
Proof. reflexivity. Qed.

Lemma foldl_preserves_elem {A B} (P : A → Prop) (f : A → B → A) a (l : list B) :
  (∀ a x, x ∈ l → P a → P (f a x)) → P a → P (foldl f a l).
Proof.
  revert a. induction l as [|x l IH]; intros a Hf Ha; [done|].
  simpl. apply IH.
  - intros a' x' Hx'. apply Hf. by right.
  - apply Hf; [by left|done].
Qed.

Lemma foldl_preserves {A B} (P : A → Prop) (f : A → B → A) a (l : list B) :
  (∀ a x, P a → P (f a x)) → P a → P (foldl f a l).
Proof. intros Hf. apply foldl_preserves_elem. intros a' x _. apply Hf. Qed.

Lemma summary_sheet_title report_type metrics :
  sheet_title (summary_sheet_of report_type metrics) = "Summary"%string.
Proof.
  unfold summary_sheet_of. cbv zeta.
  apply foldl_preserves; [done|].
  apply foldl_preserves; [done|]. done.
Qed.

Lemma data_sheets_loop_spec wb data :
  data_sheets_loop wb data
  = if decide (Forall fits data)
    then Ok (wb ++ ((λ item, data_sheet_of item.2 (humanize item.1)) <$> data))%list
    else Raise IndexError.
Proof.
  unfold data_sheets_loop. revert wb.
  induction data as [|[key df] data IH]; intros wb.
  { rewrite decide_True by constructor. simpl. by rewrite app_nil_r. }
  cbn [foldl]. rewrite bind_Ok. cbv zeta. cbn [fst snd].
  destruct (decide (length (columns df) ≤ 26)) as [Hm|Hm].
  - rewrite create_data_sheet_ok by done. rewrite IH.
    destruct (decide (Forall fits data)) as [Hall|Hall].
    + rewrite decide_True by (by constructor).
      rewrite fmap_cons, <-app_assoc. done.
    + rewrite decide_False; [done|]. by intros [? ?]%Forall_cons.
  - rewrite create_data_sheet_raise by lia.
    rewrite decide_False by (by intros [? ?]%Forall_cons).
    clear. induction data as [|x data IH]; [done|]. apply IH.
Qed.

Lemma generate_report_eq report_type data_opt :
  generate_report report_type data_opt
  = (data ← bundle_of report_type data_opt;
     workbook ← create_summary_sheet [] data report_type;
     workbook ← data_sheets_loop workbook data;
     Ok (report_path report_type, workbook)).
Proof. reflexivity. Qed.

(** A report that is saved: the metrics were computed, every frame has at
    most 26 columns, and the workbook is the Summary sheet followed by the
    data sheets in order. *)
Lemma generate_report_inv report_type data_opt path wb :
  generate_report report_type data_opt = Ok (path, wb) →
  ∃ data sales_data customer_data metrics,
    bundle_of report_type data_opt = Ok data
    ∧ getitem_dict data "sales_data" = Ok sales_data
    ∧ getitem_dict data "customer_data" = Ok customer_data
    ∧ compute_metrics report_type sales_data customer_data = Ok metrics
    ∧ Forall fits data
    ∧ path = report_path report_type
    ∧ wb = summary_sheet_of report_type metrics
           :: ((λ item, data_sheet_of item.2 (humanize item.1)) <$> data).
Proof.
  rewrite generate_report_eq. intros H.
  destruct (bundle_of report_type data_opt) as [data|] eqn:Hdata; [|done].
  rewrite bind_Ok, create_summary_sheet_eq in H.
  destruct (getitem_dict data "sales_data") as [sales|] eqn:Hs; [|done].
  rewrite bind_Ok in H.
  destruct (getitem_dict data "customer_data") as [cust|] eqn:Hc; [|done].
  rewrite bind_Ok in H.
  destruct (compute_metrics report_type sales cust) as [metrics|] eqn:Hm; [|done].
  rewrite !bind_Ok, data_sheets_loop_spec in H.
  destruct (decide (Forall fits data)) as [Hfit|]; [|done].
  rewrite bind_Ok in H. inversion H; subst.
  by exists data, sales, cust, metrics.
Qed.

Lemma generate_report_ok report_type data_opt data sales_data customer_data metrics :
  bundle_of report_type data_opt = Ok data →
  getitem_dict data "sales_data" = Ok sales_data →
  getitem_dict data "customer_data" = Ok customer_data →
  compute_metrics report_type sales_data customer_data = Ok metrics →
  Forall fits data →
  generate_report report_type data_opt
  = Ok (report_path report_type,
        summary_sheet_of report_type metrics
        :: ((λ item, data_sheet_of item.2 (humanize item.1)) <$> data)).
Proof.
  intros Hdata Hs Hc Hm Hfit.
  rewrite generate_report_eq, Hdata, bind_Ok, create_summary_sheet_eq.
  rewrite Hs, bind_Ok, Hc, bind_Ok, Hm, !bind_Ok, data_sheets_loop_spec.
  by rewrite decide_True.
Qed.

End Report.

Lemma even_mod2 r : (r mod 2 =? 0) = Nat.even r.
Proof.
  destruct (Nat.even r) eqn:E.
  - apply Nat.even_spec in E as [k ->]. apply Nat.eqb_eq.
    by rewrite Nat.mul_comm, Nat.Div0.mod_mul.
  - apply Nat.eqb_neq. intros H.
    assert (Nat.even r = true); [|congruence].
    apply Nat.even_spec. exists (r / 2).
    pose proof (Nat.div_mod_eq r 2). lia.
Qed.

(** ** Properties of the generated workbook *)

Section WorkbookProperties.

Variable float_str : float → string.
Variable strftime_now : string → string.
Variable date_range : string → list string.
Variable randint : Z → Z → nat → list Z.
Variable uniform : float → float → nat → list float.
Variable choice : list string → nat → list string.
Variable config : Config.

Local Abbreviation create_data_sheet := (create_data_sheet float_str config).
Local Abbreviation generate_sample_data :=
  (generate_sample_data date_range randint uniform choice).
Local Abbreviation generate_report :=
  (generate_report float_str strftime_now date_range randint uniform choice config).
Local Abbreviation bundle_of := (bundle_of date_range randint uniform choice).
Local Abbreviation data_sheet_of := (data_sheet_of float_str config).

Implicit Types (data : Bundle) (wb : Workbook) (ws : Worksheet) (df : DataFrame).

(** The data sheet of the [i]-th dataset is the sheet at position [i + 1]. *)
Lemma saved_data_sheet report_type data_opt path wb data i key df :
  generate_report report_type data_opt = Ok (path, wb) →
  bundle_of report_type data_opt = Ok data →
  data !! i = Some (key, df) →
  length (columns df) ≤ 26 ∧ wb !! S i = Some (data_sheet_of df (humanize key)).
Proof.
  intros Hrep Hdata Hi.
  apply generate_report_inv in Hrep
    as (data' & _ & _ & metrics & Hdata' & _ & _ & _ & Hfit & _ & ->).
  rewrite Hdata in Hdata'. inversion Hdata'; subst data'. split.
  - rewrite Forall_forall in Hfit. apply (Hfit (key, df)).
    by eapply list_elem_of_lookup_2.
  - change ((?x :: ?l) !! S i) with (l !! i). by rewrite list_lookup_fmap, Hi.
Qed.




(** The value of every cell of a data sheet is the one the frame put
    there. *)
Lemma data_sheet_value df name r c :
  1 ≤ r ≤ sheet_rows df → 1 ≤ c ≤ sheet_columns df →
  value (cell_at (data_sheet_of df name) r c) = table_value df r c.
Proof.
  intros Hr Hc. rewrite data_sheet_cell_at.
  destruct (decide (r = 1)) as [->|Hr1].
  - by rewrite styled_header_cell.
  - unfold sheet_rows, sheet_columns, header_last_column in *.
    case_decide; [lia|].
    rewrite styled_data_cell by lia. simpl.
    unfold format_data_cell. by destruct (r mod 2 =? 0).
Qed.




End WorkbookProperties.









(** ** Properties of the metrics *)

Lemma getitem_col_assoc df label c :
  getitem_col df label = Ok c ↔ assoc label (columns df) = Some c.
Proof.
  unfold getitem_col. destruct (assoc label (columns df)); split; congruence.
Qed.

Lemma series_mean_numeric c :
  is_numeric c = true → ∃ x, series_mean c = Ok x.
Proof. destruct c; intros H; try done; simpl; eauto. Qed.

Lemma format_currency_numeric c :
  is_numeric c = true → ∃ s, format_currency (series_sum c) = Ok s.
Proof. destruct c; intros H; try done; simpl; eauto. Qed.

(** The sums of three numeric columns always have a first largest one (or
    are all NaN), so the top product is found. *)
Lemma top_product_found (ca cb cc : column) :
  is_numeric ca = true → is_numeric cb = true → is_numeric cc = true →
  ∃ top, labelled_idxmax
           (frame_sum [("Product_A"%string, ca); ("Product_B"%string, cb);
                       ("Product_C"%string, cc)]) = Ok top.
Proof.
  intros Ha Hb Hc. unfold labelled_idxmax, frame_sum.
  destruct ca, cb, cc; try done; cbn [fmap list_fmap fst snd series_sum];
    unfold all_int, all_numeric; cbn [mapM mbind option_bind mret option_ret fmap option_fmap option_map];
    eauto.
Qed.

Lemma count_mask (cats : list string) (s : string) :
  length (List.filter id ((λ x, String.eqb x s) <$> cats))
  = count_occ string_dec cats s.
Proof.
  induction cats as [|x cats IH]; [done|].
  rewrite fmap_cons. cbn [List.filter count_occ].
  destruct (String.eqb_spec x s) as [->|Hne].
  - destruct (string_dec s s); [|done]. simpl. by rewrite IH.
  - destruct (string_dec x s); [done|]. simpl. by rewrite IH.
Qed.

Lemma getitem_cols_present df (ls : list string) (cs : list column) :
  Forall2 (λ l c, assoc l (columns df) = Some c) ls cs →
  getitem_cols df ls = Ok (zip ls cs).
Proof.
  intros H. unfold getitem_cols.
  assert (List.filter (λ l, negb (is_Some_b (assoc l (columns df)))) ls = []) as ->.
  { induction H as [|l c ls cs Hl _ IH]; [done|]. simpl. by rewrite Hl. }
  f_equal. induction H as [|l c ls cs Hl _ IH]; [done|].
  change (omap ?f (l :: ls))
    with (match f l with Some y => y :: omap f ls | None => omap f ls end).
  cbv beta. rewrite Hl, IH. reflexivity.
Qed.

(** C7. A daily report over a sales frame whose [Total_Revenue] sums to
    93,000 and whose three product columns are numeric, and a customer
    frame of 100 rows of which 40 have [Category] equal to "Premium",
    computes Total Revenue = "$93,000.00", Total Customers = 100 and
    Premium Customers = 40.  The number of sales rows plays no part. *)
Theorem daily_scenario_metrics sales_data customer_data revenue ca cb cc cats :
  getitem_col sales_data "Total_Revenue" = Ok revenue →
  series_sum revenue = VInt 93000 ∨ series_sum revenue = VFloat 93000 →
  getitem_col sales_data "Product_A" = Ok ca → is_numeric ca = true →
  getitem_col sales_data "Product_B" = Ok cb → is_numeric cb = true →
  getitem_col sales_data "Product_C" = Ok cc → is_numeric cc = true →
  nrows customer_data = 100 →
  getitem_col customer_data "Category" = Ok (StrCol cats) →
  length cats = 100 →
  count_occ string_dec cats "Premium"%string = 40 →
  ∃ average top,
    compute_metrics "daily" sales_data customer_data
    = Ok [("Total Revenue", VStr "$93,000.00");
          ("Average Daily Revenue", VStr average);
          ("Top Product", top);
          ("Total Customers", VInt 100);
          ("Premium Customers", VInt 40)]%string.
Proof.
  intros Hrev Hsum Ha Hna Hb Hnb Hc Hnc Hrows Hcat Hlen Hcount.
  assert (is_numeric revenue = true) as Hnum.
  { destruct revenue as [| |[|]]; try done; destruct Hsum; discriminate. }
  destruct (series_mean_numeric revenue Hnum) as [avg Havg].
  destruct (top_product_found ca cb cc Hna Hnb Hnc) as [top Htop].
  assert (format_currency (series_sum revenue) = Ok "$93,000.00"%string) as Htotal.
  { destruct Hsum as [-> | ->]; vm_compute; reflexivity. }
  exists ("$" ++ format_f true 2 avg)%string, top.
  unfold compute_metrics. cbn [String.eqb Ascii.eqb Bool.eqb]. unfold daily_metrics.
  rewrite Hrev, !bind_Ok, Havg, bind_Ok.
  rewrite (getitem_cols_present sales_data
             ["Product_A"; "Product_B"; "Product_C"]%string [ca; cb; cc]).
  2:{ repeat constructor; by apply getitem_col_assoc. }
  rewrite bind_Ok. cbn [zip zip_with]. rewrite Htop, bind_Ok, Htotal, bind_Ok.
  cbn [format_currency]. rewrite bind_Ok, Hcat, bind_Ok. rewrite Hrows.
  do 6 f_equal.
  cbn [getitem_mask nrows eq_scalar]. rewrite Hrows.
  rewrite take_ge by (rewrite length_fmap; lia).
  rewrite count_mask, Hcount. reflexivity.
Qed.

(** C8. A weekly report over a sales frame whose [Customer_Retention]
    column has mean 0.825 computes Average Retention Rate = "82.5%", the
    ratio as a percentage with one decimal; the other three weekly metrics
    are the ones their columns give. *)
Theorem weekly_retention_percentage sales_data customer_data
    actual retention new_customers score best department :
  getitem_col sales_data "Actual_Sales" = Ok actual → is_numeric actual = true →
  getitem_col sales_data "Customer_Retention" = Ok retention →
  series_mean retention = Ok 0.825%float →
  getitem_col sales_data "New_Customers" = Ok new_customers →
  getitem_col customer_data "Performance_Score" = Ok score →
  series_idxmax score = Ok best →
  loc customer_data best "Department" = Ok department →
  ∃ total,
    compute_metrics "weekly" sales_data customer_data
    = Ok [("Total Sales", VStr total);
          ("Average Retention Rate", VStr "82.5%");
          ("Total New Customers", series_sum new_customers);
          ("Best Department", department)]%string.
Proof.
  intros Hact Hnum Hret Hmean Hnew Hscore Hbest Hdept.
  destruct (format_currency_numeric actual Hnum) as [total Htotal].
  exists total.
  unfold compute_metrics. cbn [String.eqb Ascii.eqb Bool.eqb]. unfold weekly_metrics.
  rewrite Hact, bind_Ok, Hret, bind_Ok, Hmean, bind_Ok, Hnew, bind_Ok.
  rewrite Htotal, bind_Ok, Hscore, bind_Ok, Hbest, bind_Ok, Hdept, bind_Ok.
  assert (format_percent 1 0.825 = "82.5%"%string) as -> by (vm_compute; reflexivity).
  reflexivity.
Qed.

(** *** Absent datasets and columns *)

Lemma elem_of_missing df ls l :
  l ∈ missing_columns df ls ↔ l ∈ ls ∧ assoc l (columns df) = None.
Proof.
  unfold missing_columns. rewrite !list_elem_of_In, filter_In.
  by destruct (assoc l (columns df)); simpl; intuition.
Qed.

Lemma missing_columns_nil df ls :
  (∀ l, l ∈ ls → assoc l (columns df) ≠ None) → missing_columns df ls = [].
Proof.
  intros H. destruct (missing_columns df ls) as [|l rest] eqn:E; [done|].
  assert (l ∈ missing_columns df ls) as Hl by (rewrite E; left).
  apply elem_of_missing in Hl as [Hin Hnone]. by apply H in Hin.
Qed.

Section Failures.

Context {A : Type} (names : list string).

Lemma fails_lookup df l (k : column → result A) :
  (assoc l (columns df) = None → l ∈ names) →
  (∀ c, assoc l (columns df) = Some c → fails_on names (k c)) →
  fails_on names (c ← getitem_col df l; k c).
Proof.
  intros Hnone Hsome. unfold getitem_col.
  destruct (assoc l (columns df)) as [c|]; [by apply Hsome|].
  simpl. split; [done|]. intros x Hx. apply list_elem_of_singleton in Hx.
  subst x. by apply Hnone.
Qed.

Lemma fails_lookups df ls (k : list (string * column) → result A) :
  (∀ l, l ∈ ls → assoc l (columns df) = None → l ∈ names) →
  (∀ cs, (∀ l, l ∈ ls → assoc l (columns df) ≠ None) → fails_on names (k cs)) →
  fails_on names (cs ← getitem_cols df ls; k cs).
Proof.
  intros Hnone Hsome. unfold getitem_cols.
  fold (missing_columns df ls).
  destruct (missing_columns df ls) as [|l rest] eqn:E.
  - rewrite bind_Ok. apply Hsome. intros l Hl Habs.
    assert (l ∈ missing_columns df ls) as Hin by by apply elem_of_missing.
    rewrite E in Hin. by apply elem_of_nil in Hin.
  - simpl. split; [done|]. intros x Hx. rewrite <-E in Hx.
    apply elem_of_missing in Hx as [??]. by apply Hnone.
Qed.

Lemma fails_benign {B} (m : result B) (k : B → result A) :
  benign m → (∀ b, m = Ok b → fails_on names (k b)) →
  fails_on names (b ← m; k b).
Proof. destruct m as [b|[]]; simpl; intros Hb Hk; try done. by apply Hk. Qed.

End Failures.

Lemma series_mean_benign c : benign (series_mean c).
Proof. by destruct c as [| |[|]]. Qed.
Lemma format_currency_benign v : benign (format_currency v).
Proof. by destruct v. Qed.
Lemma series_idxmax_benign c : benign (series_idxmax c).
Proof. by destruct c as [[|]|[|]|]. Qed.
Lemma labelled_idxmax_benign s : benign (labelled_idxmax s).
Proof.
  unfold labelled_idxmax. destruct s; [done|].
  destruct (all_int _); [done|]. by destruct (all_numeric _).
Qed.

Lemma daily_metrics_fails sales_data customer_data :
  missing_for "daily" sales_data customer_data ≠ [] →
  fails_on (missing_for "daily" sales_data customer_data)
    (daily_metrics sales_data customer_data).
Proof.
  unfold missing_for, required_sales, required_customer.
  cbn [String.eqb Ascii.eqb Bool.eqb].
  set (names := (_ ++ _)%list). intros Hnames.
  assert (∀ l, l ∈ ["Total_Revenue"; "Product_A"; "Product_B"; "Product_C"]%string →
               assoc l (columns sales_data) = None → l ∈ names) as Hs.
  { intros l ? ?. apply elem_of_app. left. by apply elem_of_missing. }
  assert (∀ l, l ∈ ["Category"]%string →
               assoc l (columns customer_data) = None → l ∈ names) as Hc.
  { intros l ? ?. apply elem_of_app. right. by apply elem_of_missing. }
  unfold daily_metrics. cbv zeta.
  apply fails_lookup; [apply Hs; by left|]. intros revenue Hrev.
  apply fails_lookup; [apply Hs; by left|]. intros revenue' _.
  apply fails_benign; [apply series_mean_benign|]. intros avg _.
  apply fails_lookups; [intros l Hl; apply Hs; by right|]. intros products Hprod.
  apply fails_benign; [apply labelled_idxmax_benign|]. intros top _.
  apply fails_benign; [apply format_currency_benign|]. intros m1 _.
  apply fails_benign; [apply format_currency_benign|]. intros m2 _.
  apply fails_lookup; [apply Hc; by left|]. intros category Hcat.
  exfalso. apply Hnames. unfold names.
  rewrite !missing_columns_nil; [done| |].
  - intros l Hl. apply list_elem_of_singleton in Hl. congruence.
  - intros l [->|Hl]%elem_of_cons; [congruence|]. by apply Hprod.
Qed.

Lemma weekly_metrics_fails report_type sales_data customer_data :
  report_type ≠ "daily"%string →
  missing_for report_type sales_data customer_data ≠ [] →
  fails_on (missing_for report_type sales_data customer_data)
    (weekly_metrics sales_data customer_data).
Proof.
  intros Hrt. unfold missing_for, required_sales, required_customer.
  apply String.eqb_neq in Hrt. rewrite Hrt.
  set (names := (_ ++ _)%list). intros Hnames.
  assert (∀ l, l ∈ ["Actual_Sales"; "Customer_Retention"; "New_Customers"]%string →
               assoc l (columns sales_data) = None → l ∈ names) as Hs.
  { intros l ? ?. apply elem_of_app. left. by apply elem_of_missing. }
  assert (∀ l, l ∈ ["Performance_Score"; "Department"]%string →
               assoc l (columns customer_data) = None → l ∈ names) as Hc.
  { intros l ? ?. apply elem_of_app. right. by apply elem_of_missing. }
  unfold weekly_metrics. cbv zeta.
  apply fails_lookup; [apply Hs; by left|]. intros actual Hact.
  apply fails_lookup; [apply Hs; by right; left|]. intros retention Hret.
  apply fails_benign; [apply series_mean_benign|]. intros avg _.
  apply fails_lookup; [apply Hs; by right; right; left|]. intros new_customers Hnew.
  apply fails_benign; [apply format_currency_benign|]. intros m1 _.
  apply fails_lookup; [apply Hc; by left|]. intros score Hscore.
  apply fails_benign; [apply series_idxmax_benign|]. intros best _.
  unfold loc.
  assert (∀ {B C} (m : result B) (k1 : B → result C)
            (k2 : C → result (list (string * scalar))),
            (x ← (y ← m; k1 y); k2 x) = (y ← m; x ← k1 y; k2 x)) as Hassoc.
  { intros B C [?|?] ??; reflexivity. }
  rewrite Hassoc.
  apply fails_lookup; [apply Hc; by right; left|]. intros department Hdept.
  exfalso. apply Hnames. unfold names.
  rewrite !missing_columns_nil; [done| |].
  - intros l Hl. repeat (apply elem_of_cons in Hl as [->|Hl]; [congruence|]).
    by apply elem_of_nil in Hl.
  - intros l Hl. repeat (apply elem_of_cons in Hl as [->|Hl]; [congruence|]).
    by apply elem_of_nil in Hl.
Qed.

Lemma fails_bind {A B} names (m : result A) (k : A → result B) :
  fails_on names m → fails_on names (a ← m; k a).
Proof. by destruct m as [a|[]]. Qed.

Lemma compute_metrics_other report_type sales_data customer_data :
  report_type ≠ "daily"%string →
  compute_metrics report_type sales_data customer_data
  = weekly_metrics sales_data customer_data.
Proof. intros H%String.eqb_neq. unfold compute_metrics. by rewrite H. Qed.

Lemma compute_metrics_fails report_type sales_data customer_data :
  missing_for report_type sales_data customer_data ≠ [] →
  fails_on (missing_for report_type sales_data customer_data)
    (compute_metrics report_type sales_data customer_data).
Proof.
  intros H. destruct (String.eqb_spec report_type "daily") as [->|Hrt].
  - by apply daily_metrics_fails.
  - rewrite compute_metrics_other by done. by apply weekly_metrics_fails.
Qed.

Lemma make_frame_columns cols df : make_frame cols = Ok df → columns df = cols.
Proof.
  unfold make_frame. destruct cols as [|[l c] cols]; [by intros [= <-]|].
  case_match; [by intros [= <-]|done].
Qed.

Lemma generate_sample_data_other date_range randint uniform choice report_type :
  report_type ≠ "daily"%string →
  generate_sample_data date_range randint uniform choice report_type
  = generate_sample_data date_range randint uniform choice "weekly".
Proof.
  intros H%String.eqb_neq. unfold generate_sample_data. by rewrite H.
Qed.

Lemma weekly_sample_shape date_range randint uniform choice data :
  generate_sample_data date_range randint uniform choice "weekly" = Ok data →
  ∃ sales_data customer_data,
    data = [("sales_data"%string, sales_data); ("customer_data"%string, customer_data)]
    ∧ labels sales_data
      = ["Week"; "Sales_Target"; "Actual_Sales"; "New_Customers";
         "Customer_Retention"]%string
    ∧ labels customer_data
      = ["Department"; "Budget"; "Actual_Spend"; "Performance_Score";
         "Team_Size"]%string.
Proof.
  unfold generate_sample_data. cbn [String.eqb Ascii.eqb Bool.eqb]. cbv zeta.
  intros H. apply bind_Ok_inv in H as (sales & Hs & H).
  apply bind_Ok_inv in H as (cust & Hc & H). inversion H; subst data.
  exists sales, cust. split; [done|].
  apply make_frame_columns in Hs, Hc. unfold labels. by rewrite Hs, Hc.
Qed.

Section ReportTypeProperties.

Variable float_str : float → string.
Variable strftime_now : string → string.
Variable date_range : string → list string.
Variable randint : Z → Z → nat → list Z.
Variable uniform : float → float → nat → list float.
Variable choice : list string → nat → list string.
Variable config : Config.

Local Abbreviation generate_sample_data :=
  (generate_sample_data date_range randint uniform choice).
Local Abbreviation generate_report :=
  (generate_report float_str strftime_now date_range randint uniform choice config).
Local Abbreviation bundle_of := (bundle_of date_range randint uniform choice).
Local Abbreviation data_sheet_of := (data_sheet_of float_str config).
Local Abbreviation report_path := (report_path strftime_now config).

Implicit Types (data : Bundle) (wb : Workbook) (ws : Worksheet) (df : DataFrame).

(** The outcome of [generate_report], stage by stage. *)
Lemma generate_report_outcome report_type data_opt :
  generate_report report_type data_opt
  = (data ← bundle_of report_type data_opt;
     sales_data ← getitem_dict data "sales_data";
     customer_data ← getitem_dict data "customer_data";
     metrics ← compute_metrics report_type sales_data customer_data;
     if decide (Forall fits data)
     then Ok (report_path report_type,
              summary_sheet_of strftime_now config report_type metrics
              :: ((λ item, data_sheet_of item.2 (humanize item.1)) <$> data))
     else Raise IndexError).
Proof.
  rewrite generate_report_eq.
  destruct (bundle_of report_type data_opt) as [data|]; [|done].
  rewrite !bind_Ok, create_summary_sheet_eq.
  destruct (getitem_dict data "sales_data") as [sales|]; [|done].
  rewrite !bind_Ok.
  destruct (getitem_dict data "customer_data") as [cust|]; [|done].
  rewrite !bind_Ok.
  destruct (compute_metrics report_type sales cust) as [metrics|]; [|done].
  rewrite !bind_Ok, data_sheets_loop_spec. by case_decide.
Qed.

(** C5, as the code has it. When a dataset or a column the metric
    computation of the report type reads is absent, [generate_report]
    raises and saves nothing.  No exception class of the program is called
    MissingDataError: the exception is the built-in [KeyError] carrying
    absent names, unless an aggregation that comes earlier raised
    [TypeError] or [ValueError].  It is [KeyError] of "sales_data" when
    that dataset is absent, and [KeyError] of "Total_Revenue" for a daily
    report whose sales frame lacks that column. *)
Theorem absent_data_raises_key_error report_type data :
  absent report_type data ≠ [] →
  ∃ e, generate_report report_type (Some data) = Raise e
    ∧ exn_class e ≠ "MissingDataError"%string
    ∧ match e with
      | KeyError ks => ks ≠ [] ∧ ks ⊆ absent report_type data
      | TypeError | ValueError => True
      | IndexError => False
      end
    ∧ (assoc "sales_data" data = None → e = KeyError ["sales_data"]%string)
    ∧ (∀ sales_data, report_type = "daily"%string →
         assoc "sales_data" data = Some sales_data →
         is_Some (assoc "customer_data" data) →
         assoc "Total_Revenue" (columns sales_data) = None →
         e = KeyError ["Total_Revenue"]%string).
Proof.
  intros Habsent.
  assert (fails_on (absent report_type data) (generate_report report_type (Some data))
          ∧ (assoc "sales_data" data = None →
             generate_report report_type (Some data) = Raise (KeyError ["sales_data"]%string))
          ∧ (∀ sales_data, report_type = "daily"%string →
               assoc "sales_data" data = Some sales_data →
               is_Some (assoc "customer_data" data) →
               assoc "Total_Revenue" (columns sales_data) = None →
               generate_report report_type (Some data)
               = Raise (KeyError ["Total_Revenue"]%string))) as (Hfail & Hsales & Hrev).
  { rewrite generate_report_outcome. unfold bundle_of. rewrite bind_Ok.
    unfold absent, getitem_dict in *.
    destruct (assoc "sales_data" data) as [sales|];
      destruct (assoc "customer_data" data) as [cust|]; rewrite ?bind_Ok.
    - split; [|split; [done|]].
      + apply fails_bind. by apply compute_metrics_fails.
      + intros s -> [= <-] _ Hnone. unfold compute_metrics.
        cbn [String.eqb Ascii.eqb Bool.eqb]. unfold daily_metrics, getitem_col.
        by rewrite Hnone.
    - split; [|split; [done|]].
      + simpl. split; [done|]. intros x Hx. apply list_elem_of_singleton in Hx.
        subst x. by left.
      + by intros s _ _ [? ?].
    - split; [|split; [done|done]].
      simpl. split; [done|]. intros x Hx. apply list_elem_of_singleton in Hx.
      subst x. by left.
    - split; [|split; [done|done]].
      simpl. split; [done|]. intros x Hx. apply list_elem_of_singleton in Hx.
      subst x. by left. }
  destruct (generate_report report_type (Some data)) as [?|e] eqn:Hrep; [done|].
  exists e. split; [done|]. split; [by destruct e|]. split; [by destruct e|].
  split.
  - intros H. specialize (Hsales H). congruence.
  - intros s H1 H2 H3 H4. specialize (Hrev s H1 H2 H3 H4). congruence.
Qed.

(** The title cell of the Summary sheet keeps its value through the
    rest of [create_summary_sheet]. *)
Lemma update_cell_elsewhere f r c ws r' c' :
  (r, c) ≠ (r', c') → cell_at (update_cell f r c ws) r' c' = cell_at ws r' c'.
Proof.
  intros Hne. unfold cell_at, update_cell. simpl. by rewrite modify_lookup_ne.
Qed.

Lemma summary_title_cell report_type metrics :
  value (cell_at (summary_sheet_of strftime_now config report_type metrics) 1 1)
  = VStr (summary_title config report_type).
Proof.
  unfold summary_sheet_of. cbv zeta.
  apply foldl_preserves_elem.
  { intros ws [r c] Hin H. rewrite update_cell_elsewhere; [done|].
    intros [= -> ->]. apply elem_of_iter_rows in Hin. lia. }
  apply foldl_preserves.
  { intros ws [i [label v]] H. cbv zeta. cbn [fst snd].
    rewrite !update_cell_elsewhere; [done|intros [=]; lia..]. }
  vm_compute. reflexivity.
Qed.


End ReportTypeProperties.

Lemma daily_scenario_metrics_witness :
  ∃ average top,
    compute_metrics "daily" scenario_sales scenario_customers
    = Ok [("Total Revenue", VStr "$93,000.00");
          ("Average Daily Revenue", VStr average);
          ("Top Product", top);
          ("Total Customers", VInt 100);
          ("Premium Customers", VInt 40)]%string.
Proof.
  apply (daily_scenario_metrics scenario_sales scenario_customers
           (IntCol (repeat 3000%Z 31)) (IntCol (repeat 60%Z 31))
           (IntCol (repeat 75%Z 31)) (IntCol (repeat 40%Z 31)) scenario_categories).
  - reflexivity.
  - left. vm_compute. reflexivity.
  - reflexivity.
  - reflexivity.
  - reflexivity.
  - reflexivity.
  - reflexivity.
  - reflexivity.
  - reflexivity.
  - reflexivity.
  - vm_compute. reflexivity.
  - vm_compute. reflexivity.
Defined.

Lemma weekly_retention_percentage_witness :
  ∃ total,
    compute_metrics "weekly" weekly_sales weekly_departments
    = Ok [("Total Sales", VStr total);
          ("Average Retention Rate", VStr "82.5%");
          ("Total New Customers", VInt 75);
          ("Best Department", VStr "Support")]%string.
Proof.
  apply (weekly_retention_percentage weekly_sales weekly_departments
           (IntCol [9000; 12000]%Z) (FloatCol [0.825; 0.825]%float)
           (IntCol [30; 45]%Z) (FloatCol [0.7; 0.9]%float) (Some 1) (VStr "Support")).
  - reflexivity.
  - reflexivity.
  - reflexivity.
  - vm_compute. reflexivity.
  - reflexivity.
  - reflexivity.
  - vm_compute. reflexivity.
  - vm_compute. reflexivity.
Defined.

(** C5 as worded fails twice.  On the empty bundle the daily report
    raises the built-in [KeyError] for "sales_data", which is no
    MissingDataError.  And on a weekly bundle whose department frame is
    empty and lacks "Department", the exception is the [ValueError] of
    [idxmax] over an empty column, which names nothing. *)
Lemma missing_data_error_not_raised :
  (absent "daily" [] ≠ []
   ∧ ∃ e, run_report "daily" (Some []) = Raise e
       ∧ e = KeyError ["sales_data"]%string
       ∧ exn_class e ≠ "MissingDataError"%string)
  ∧ (absent "weekly" [("sales_data"%string, weekly_sales);
                      ("customer_data"%string, no_departments)]
     = ["Department"]%string
     ∧ run_report "weekly" (Some [("sales_data"%string, weekly_sales);
                                  ("customer_data"%string, no_departments)])
       = Raise ValueError).
Proof.
  split.
  - split; [done|]. exists (KeyError ["sales_data"]%string).
    split; [reflexivity|]. split; [reflexivity|]. discriminate.
  - split; vm_compute; reflexivity.
Qed.

Lemma absent_data_raises_key_error_witness :
  ∃ e, run_report "weekly" (Some sample_bundle) = Raise e
    ∧ exn_class e ≠ "MissingDataError"%string.
Proof.
  destruct (absent_data_raises_key_error sample_float_str sample_clock
              sample_date_range sample_randint sample_uniform sample_choice
              default_config "weekly" sample_bundle) as (e & He & Hclass & _).
  - vm_compute. discriminate.
  - exists e. split; [exact He|exact Hclass].
Defined.


(** ** Runs of the model *)

Example monthly_report_generated :
  ∃ wb, run_report "monthly" None
        = Ok ("reports/monthly_report_20240115_093000.xlsx"%string, wb)
    ∧ sheetnames wb = ["Summary"; "Sales Data"; "Customer Data"]%string
    ∧ value (cell_at (default (create_sheet "") (head wb)) 1 1)
      = VStr "Your Company Name - Monthly Report Summary"
    ∧ value (cell_at (default (create_sheet "") (head wb)) 6 1)
      = VStr "Average Retention Rate".
Proof.
  exists (saved_workbook (run_report "monthly" None)).
  repeat split; vm_compute; reflexivity.
Qed.

Example wide_frame_raises :
  run_report "daily"
    (Some (sample_bundle ++ [("wide"%string, wide_frame)])%list)
  = Raise IndexError.
Proof. vm_compute. reflexivity. Qed.

Example title_sales_data : title (replace "_" " " "sales_data") = "Sales Data".
Proof. reflexivity. Qed.

Example title_mixed : title "top10 sELLERS" = "Top10 Sellers".
Proof. reflexivity. Qed.

Example str_Z_93000 : str_Z 93000 = "93000" ∧ str_Z (-7) = "-7" ∧ str_Z 0 = "0".
Proof. repeat split; reflexivity. Qed.

Example getitem_last : getitem "ABC" (-1) = Ok "C"%char ∧ getitem "ABC" 3 = Raise IndexError.
Proof. split; reflexivity. Qed.

Example format_f_examples :
  format_f true 2 (float_of_Z 93000) = "93,000.00"
  ∧ format_f true 2 (float_of_Z 1234567) = "1,234,567.00"
  ∧ format_f true 2 (float_of_Z (-512)) = "-512.00"
  ∧ format_f true 2 0.125%float = "0.12"
  ∧ format_f true 2 2.675%float = "2.67"
  ∧ format_f true 2 999.995%float = "1,000.00"
  ∧ format_f true 2 nan = "nan".
Proof. repeat split; vm_compute; reflexivity. Qed.

Example format_percent_examples :
  format_percent 1 0.825%float = "82.5%" ∧ format_percent 1 0.05%float = "5.0%".
Proof. split; vm_compute; reflexivity. Qed.

Example column_letters :
  get_column_letter 1 = "A" ∧ get_column_letter 26 = "Z"
  ∧ get_column_letter 27 = "AA" ∧ get_column_letter 703 = "AAA".
Proof. repeat split; reflexivity. Qed.

Example header_range : getitem_range "A:C1" = Ok [(1, 1); (1, 2); (1, 3)].
Proof. reflexivity. Qed.

(** * Further properties *)

Section SheetContents.

Variable float_str : float → string.
Variable config : Config.

Local Abbreviation create_data_sheet := (create_data_sheet float_str config).
Local Abbreviation data_sheet_of := (data_sheet_of float_str config).

Implicit Types (wb : Workbook) (ws : Worksheet) (df : DataFrame).

Lemma table_header_row df :
  (λ c, table_value df 1 c) <$> range_incl 1 (length (columns df))
  = VStr <$> labels df.
Proof.
  apply list_eq. intros i. unfold range_incl, labels.
  rewrite !list_lookup_fmap.
  destruct (decide (i < length (columns df))) as [Hi|Hi].
  - rewrite lookup_seq_lt by lia. simpl. unfold table_value. simpl.
    rewrite Nat.sub_0_r.
    destruct (columns df !! i) as [[l col]|] eqn:E; [done|].
    apply lookup_ge_None in E. lia.
  - rewrite lookup_seq_ge by lia. by rewrite lookup_ge_None_2 by lia.
Qed.

Lemma table_data_row df j :
  (λ c, table_value df (S (S j)) c) <$> range_incl 1 (length (columns df))
  = row_values df j.
Proof.
  apply list_eq. intros i. unfold range_incl, row_values.
  rewrite !list_lookup_fmap.
  destruct (decide (i < length (columns df))) as [Hi|Hi].
  - rewrite lookup_seq_lt by lia. simpl. unfold table_value. simpl.
    rewrite !Nat.sub_0_r.
    destruct (columns df !! i) as [[l col]|] eqn:E; [done|].
    apply lookup_ge_None in E. lia.
  - rewrite lookup_seq_ge by lia. by rewrite lookup_ge_None_2 by lia.
Qed.



(** X3. What [_apply_data_formatting] does to a worksheet, cell by cell:
    inside the rectangle every cell exists afterwards, keeps its value and
    font, gets the thin border and the centred alignment, and gets the
    banding fill on an even row while an odd row keeps the fill it had;
    outside the rectangle nothing changes.  Title, appended row, widths
    and merged ranges are kept. *)
Theorem data_formatting_contract ws sr er sc ec r c :
  sheet_title (_apply_data_formatting ws sr er sc ec) = sheet_title ws
  ∧ current_row (_apply_data_formatting ws sr er sc ec) = current_row ws
  ∧ column_dimensions (_apply_data_formatting ws sr er sc ec) = column_dimensions ws
  ∧ merged_cells (_apply_data_formatting ws sr er sc ec) = merged_cells ws
  ∧ cells (_apply_data_formatting ws sr er sc ec) !! (r, c)
    = if decide (sr ≤ r ≤ er ∧ sc ≤ c ≤ ec)
      then Some {| value := value (cell_at ws r c);
                   font := font (cell_at ws r c);
                   fill := if Nat.even r then Some banding_fill
                           else fill (cell_at ws r c);
                   border := Some thin_border;
                   alignment := Some centered |}
      else cells ws !! (r, c).
Proof.
  rewrite data_formatting_cells. simpl. repeat split.
  case_decide as Hin.
  - rewrite apply_at_in; [|apply NoDup_iter_rows|by apply elem_of_iter_rows].
    unfold format_data_cell, cell_at. cbn [fst]. rewrite even_mod2.
    by destruct (Nat.even r).
  - apply apply_at_notin. by rewrite elem_of_iter_rows.
Qed.

End SheetContents.



(** ** The Summary sheet *)

Section SummarySheet.

Variable strftime_now : string → string.
Variable config : Config.

Local Abbreviation create_summary_sheet := (create_summary_sheet strftime_now config).
Local Abbreviation summary_sheet_of := (summary_sheet_of strftime_now config).

Implicit Types (data : Bundle) (wb : Workbook) (ws : Worksheet).
Implicit Types (metrics : list (string * scalar)).

(** The loop that writes the metric rows touches rows 5 and below only,
    one row per metric. *)
Lemma metric_rows_cells metrics ws r c :
  cells (foldl (λ ws (imv : nat * (string * scalar)),
                  let i := 4 + 1 + imv.1 in
                  let ws := update_cell (set_value (VStr imv.2.1)) i 1 ws in
                  let ws := update_cell (set_value imv.2.2) i 2 ws in
                  update_cell (set_font {| bold := true; italic := false;
                                           color := None; size := None |}) i 1 ws)
           ws (imap (λ i mv, (i, mv)) metrics)) !! (r, c)
  = match (if decide (5 ≤ r) then metrics !! (r - 5) else None) with
    | Some (label, v) =>
        if decide (c = 1) then
          Some (set_font {| bold := true; italic := false; color := None;
                            size := None |}
                  (set_value (VStr label) (cell_at ws r c)))
        else if decide (c = 2) then Some (set_value v (cell_at ws r c))
        else cells ws !! (r, c)
    | None => cells ws !! (r, c)
    end.
Proof.
  induction metrics as [|[label v] l IH] using rev_ind.
  - simpl. by case_decide.
  - rewrite imap_app, foldl_app. cbn [imap foldl]. cbv zeta. cbn [fst snd].
    rewrite Nat.add_0_r.
    set (W := foldl _ ws _) in *. unfold update_cell. cbn [cells with_cells].
    destruct (decide (r = 5 + length l)) as [->|Hr].
    + rewrite decide_True in IH by lia. rewrite decide_True by lia.
      replace (5 + length l - 5) with (length l) in * by lia.
      rewrite lookup_ge_None_2 in IH by lia.
      rewrite lookup_app_r, Nat.sub_diag by lia. cbn [lookup list_lookup].
      destruct (decide (c = 1)) as [->|Hc1].
      { change (4 + 1 + length l) with (5 + length l).
        rewrite modify_lookup_eq, modify_lookup_ne by (intros [=]).
        rewrite modify_lookup_eq. by rewrite IH. }
      destruct (decide (c = 2)) as [->|Hc2].
      { change (4 + 1 + length l) with (5 + length l).
        rewrite modify_lookup_ne by (intros [=]).
        rewrite modify_lookup_eq, modify_lookup_ne by (intros [=]).
        by rewrite IH. }
      rewrite !modify_lookup_ne by (intros [=]; lia). done.
    + rewrite !modify_lookup_ne by (intros [=]; lia). rewrite IH.
      case_decide as H5; [|done].
      destruct (decide (r - 5 < length l)).
      * by rewrite lookup_app_l by lia.
      * rewrite !lookup_ge_None_2; [done|rewrite length_app; simpl; lia|lia].
Qed.

Lemma summary_cells report_type metrics r c :
  cells (summary_sheet_of report_type metrics) !! (r, c)
  = summary_layout (summary_title config report_type)
      ("Generated: " ++ strftime_now (date_format config)) metrics r c.
Proof.
  unfold summary_sheet_of. cbv zeta.
  rewrite (foldl_update_cells (λ _, set_border thin_border) id).
  cbn [cells with_cells].
  match goal with
  | |- foldl _ ?m0 ?l0 !! _ = _ =>
      change (foldl (λ m a, modify (set_border thin_border) (id a) m) m0 l0)
        with (apply_at (λ _ : nat * nat, set_border thin_border) l0 m0)
  end.
  unfold summary_layout.
  destruct (decide (5 ≤ r)) as [H5|H5].
  - rewrite (decide_False (P := r = 1 ∧ c = 1)) by lia.
    rewrite (decide_False (P := r = 2 ∧ c = 1)) by lia.
    rewrite (decide_False (P := r = 4 ∧ c = 1)) by lia.
    destruct (metrics !! (r - 5)) as [[label v]|] eqn:E.
    + apply lookup_lt_Some in E as Hlt.
      destruct (decide (c = 1)) as [->|Hc1]; [|destruct (decide (c = 2)) as [->|Hc2]].
      * rewrite apply_at_in;
          [|apply NoDup_iter_rows|apply elem_of_iter_rows; lia].
        rewrite metric_rows_cells, decide_True, E by lia.
        rewrite ?decide_True, ?(decide_False (P := 2 = 1)) by lia.
        unfold cell_at, update_cell, create_sheet. cbn [cells with_cells].
        rewrite !modify_lookup_ne by (intros [=]; lia). done.
      * rewrite apply_at_in;
          [|apply NoDup_iter_rows|apply elem_of_iter_rows; lia].
        rewrite metric_rows_cells, decide_True, E by lia.
        rewrite ?decide_True, ?(decide_False (P := 2 = 1)) by lia.
        unfold cell_at, update_cell, create_sheet. cbn [cells with_cells].
        rewrite !modify_lookup_ne by (intros [=]; lia). done.
      * rewrite apply_at_notin by (rewrite elem_of_iter_rows; lia).
        rewrite metric_rows_cells, decide_True, E by lia.
        rewrite !decide_False by lia.
        unfold update_cell, create_sheet. cbn [cells with_cells].
        rewrite !modify_lookup_ne by (intros [=]; lia). done.
    + apply lookup_ge_None in E as Hge.
      rewrite apply_at_notin by (rewrite elem_of_iter_rows; lia).
      rewrite metric_rows_cells, decide_True, E by lia.
      unfold update_cell, create_sheet. cbn [cells with_cells].
      rewrite !modify_lookup_ne by (intros [=]; lia). done.
  - rewrite apply_at_notin by (rewrite elem_of_iter_rows; lia).
    rewrite metric_rows_cells, (decide_False (P := 5 ≤ r)) by lia.
    unfold update_cell, create_sheet. cbn [cells with_cells].
    destruct (decide (r = 1 ∧ c = 1)) as [[-> ->]|H1].
    { rewrite !modify_lookup_ne by (intros [=]).
      rewrite !modify_lookup_eq. done. }
    destruct (decide (r = 2 ∧ c = 1)) as [[-> ->]|H2].
    { rewrite !modify_lookup_ne by (intros [=]).
      rewrite !modify_lookup_eq. done. }
    destruct (decide (r = 4 ∧ c = 1)) as [[-> ->]|H4].
    { rewrite !modify_lookup_eq. done. }
    rewrite !modify_lookup_ne by (intros [=]; lia). done.
Qed.

Lemma summary_sheet_fields report_type metrics :
  sheet_title (summary_sheet_of report_type metrics) = "Summary"%string
  ∧ merged_cells (summary_sheet_of report_type metrics) = ["A1:F1"%string]
  ∧ column_dimensions (summary_sheet_of report_type metrics) = [].
Proof.
  unfold summary_sheet_of. cbv zeta.
  apply (foldl_preserves
           (λ ws, sheet_title ws = "Summary"%string
                  ∧ merged_cells ws = ["A1:F1"%string]
                  ∧ column_dimensions ws = [])); [done|].
  apply (foldl_preserves
           (λ ws, sheet_title ws = "Summary"%string
                  ∧ merged_cells ws = ["A1:F1"%string]
                  ∧ column_dimensions ws = [])); [done|].
  done.
Qed.


End SummarySheet.


(** ** The metrics *)

Ltac bind_inv H :=
  let a := fresh "a" in
  let E := fresh "E" in
  apply bind_Ok_inv in H as (a & E & H); cbv beta zeta in H.

(** X5. The rows of the metric table are fixed by the report type alone:
    whenever the metrics can be computed, a "daily" report lists Total
    Revenue, Average Daily Revenue, Top Product, Total Customers and
    Premium Customers, in this order, and every other report type lists
    Total Sales, Average Retention Rate, Total New Customers and Best
    Department. *)
Theorem metric_labels_by_type report_type sales_data customer_data metrics :
  compute_metrics report_type sales_data customer_data = Ok metrics →
  metrics.*1
  = if decide (report_type = "daily"%string)
    then ["Total Revenue"; "Average Daily Revenue"; "Top Product";
          "Total Customers"; "Premium Customers"]%string
    else ["Total Sales"; "Average Retention Rate"; "Total New Customers";
          "Best Department"]%string.
Proof.
  unfold compute_metrics. intros H.
  destruct (String.eqb_spec report_type "daily") as [->|Hne].
  - rewrite decide_True by done. unfold daily_metrics in H.
    repeat bind_inv H. by injection H as <-.
  - rewrite decide_False by done. unfold weekly_metrics in H.
    repeat bind_inv H. by injection H as <-.
Qed.

Lemma metric_labels_by_type_witness :
  [("Total Sales", VStr "$21,000.00"); ("Average Retention Rate", VStr "82.5%");
   ("Total New Customers", VInt 75); ("Best Department", VStr "Support")]%string.*1
  = if decide ("weekly" = "daily"%string)
    then ["Total Revenue"; "Average Daily Revenue"; "Top Product";
          "Total Customers"; "Premium Customers"]%string
    else ["Total Sales"; "Average Retention Rate"; "Total New Customers";
          "Best Department"]%string.
Proof.
  apply (metric_labels_by_type "weekly" weekly_sales weekly_departments).
  vm_compute. reflexivity.
Defined.

Lemma filter_length_le {A} (f : A → bool) (l : list A) :
  length (List.filter f l) ≤ length l.
Proof. induction l as [|x l IH]; simpl; [done|]. destruct (f x); simpl; lia. Qed.

(** X6. The customer counts of a daily report: Total Customers is the
    number of rows of the customer frame, Premium Customers never exceeds
    it, and for a Category column of strings as long as the frame it is
    the number of entries equal to "Premium". *)
Theorem premium_customers_counted sales_data customer_data metrics :
  compute_metrics "daily" sales_data customer_data = Ok metrics →
  ∃ premium,
    assoc "Total Customers" metrics = Some (VInt (Z.of_nat (nrows customer_data)))
    ∧ assoc "Premium Customers" metrics = Some (VInt (Z.of_nat premium))
    ∧ premium ≤ nrows customer_data
    ∧ ∀ cats, getitem_col customer_data "Category" = Ok (StrCol cats) →
        length cats = nrows customer_data →
        premium = count_occ string_dec cats "Premium"%string.
Proof.
  unfold compute_metrics. cbn [String.eqb Ascii.eqb Bool.eqb]. unfold daily_metrics.
  intros H. repeat bind_inv H. injection H as <-.
  eexists. split; [reflexivity|]. split; [reflexivity|]. split.
  - cbn [nrows getitem_mask]. etrans; [apply filter_length_le|].
    rewrite length_take. lia.
  - intros cats Hcat Hlen. rewrite Hcat in *. simplify_eq.
    cbn [nrows getitem_mask eq_scalar].
    rewrite take_ge by (rewrite length_fmap; lia). apply count_mask.
Qed.

Lemma premium_customers_counted_witness :
  ∃ premium,
    assoc "Total Customers"
      [("Total Revenue", VStr "$93,000.00");
       ("Average Daily Revenue", VStr "$3,000.00");
       ("Top Product", VStr "Product_B");
       ("Total Customers", VInt 100);
       ("Premium Customers", VInt 40)]%string
    = Some (VInt (Z.of_nat (nrows scenario_customers)))
    ∧ assoc "Premium Customers"
        [("Total Revenue", VStr "$93,000.00");
         ("Average Daily Revenue", VStr "$3,000.00");
         ("Top Product", VStr "Product_B");
         ("Total Customers", VInt 100);
         ("Premium Customers", VInt 40)]%string
      = Some (VInt (Z.of_nat premium))
    ∧ premium ≤ nrows scenario_customers
    ∧ ∀ cats, getitem_col scenario_customers "Category" = Ok (StrCol cats) →
        length cats = nrows scenario_customers →
        premium = count_occ string_dec cats "Premium"%string.
Proof.
  apply (premium_customers_counted scenario_sales scenario_customers).
  vm_compute. reflexivity.
Defined.

(** X7. Top Product for integer product columns: it names a product whose
    (64-bit) total no other product exceeds, and among equal totals the
    first in the order Product_A, Product_B, Product_C. *)
Theorem top_product_first_largest sales_data customer_data metrics a b c :
  compute_metrics "daily" sales_data customer_data = Ok metrics →
  getitem_col sales_data "Product_A" = Ok (IntCol a) →
  getitem_col sales_data "Product_B" = Ok (IntCol b) →
  getitem_col sales_data "Product_C" = Ok (IntCol c) →
  ∃ top total,
    assoc "Top Product" metrics = Some (VStr top)
    ∧ (top, total) ∈ [("Product_A"%string, wrap64 (sum_Z a));
                      ("Product_B"%string, wrap64 (sum_Z b));
                      ("Product_C"%string, wrap64 (sum_Z c))]
    ∧ (wrap64 (sum_Z a) ≤ total)%Z
    ∧ (wrap64 (sum_Z b) ≤ total)%Z
    ∧ (wrap64 (sum_Z c) ≤ total)%Z
    ∧ (top = "Product_B"%string → (wrap64 (sum_Z a) < total)%Z)
    ∧ (top = "Product_C"%string →
       (wrap64 (sum_Z a) < total)%Z ∧ (wrap64 (sum_Z b) < total)%Z).
Proof.
  unfold compute_metrics. cbn [String.eqb Ascii.eqb Bool.eqb]. unfold daily_metrics.
  intros H Ha Hb Hc.
  apply getitem_col_assoc in Ha, Hb, Hc.
  rewrite (getitem_cols_present sales_data
             ["Product_A"; "Product_B"; "Product_C"]%string
             [IntCol a; IntCol b; IntCol c]) in H
    by (repeat constructor; done).
  repeat bind_inv H. injection H as <-.
  cbn [assoc String.eqb Ascii.eqb Bool.eqb].
  match goal with E : Ok (zip _ _) = Ok _ |- _ => injection E as <- end.
  match goal with E : labelled_idxmax _ = Ok _ |- _ => revert E end. cbn [zip zip_with frame_sum fmap list_fmap fst snd series_sum].
  generalize (wrap64 (sum_Z a)) (wrap64 (sum_Z b)) (wrap64 (sum_Z c)).
  intros sa sb sc. unfold labelled_idxmax.
  cbn [fmap list_fmap snd all_int mapM mbind option_bind mret option_ret
       argmax_Z argmax_from].
  destruct (Z.ltb_spec sa sb), (Z.ltb_spec sb sc), (Z.ltb_spec sa sc);
    cbn [lookup list_lookup]; intros [= <-];
    first [ exists "Product_A"%string, sa; split; [done|];
            split; [set_solver|]; repeat split; (lia || done)
          | exists "Product_B"%string, sb; split; [done|];
            split; [set_solver|]; repeat split; (lia || done)
          | exists "Product_C"%string, sc; split; [done|];
            split; [set_solver|]; repeat split; (lia || done) ].
Qed.

Lemma top_product_first_largest_witness :
  ∃ top total,
    assoc "Top Product"
      [("Total Revenue", VStr "$93,000.00");
       ("Average Daily Revenue", VStr "$3,000.00");
       ("Top Product", VStr "Product_B");
       ("Total Customers", VInt 100);
       ("Premium Customers", VInt 40)]%string = Some (VStr top)
    ∧ (top, total) ∈ [("Product_A"%string, wrap64 (sum_Z (repeat 60%Z 31)));
                      ("Product_B"%string, wrap64 (sum_Z (repeat 75%Z 31)));
                      ("Product_C"%string, wrap64 (sum_Z (repeat 40%Z 31)))]
    ∧ (wrap64 (sum_Z (repeat 60%Z 31)) ≤ total)%Z
    ∧ (wrap64 (sum_Z (repeat 75%Z 31)) ≤ total)%Z
    ∧ (wrap64 (sum_Z (repeat 40%Z 31)) ≤ total)%Z
    ∧ (top = "Product_B"%string → (wrap64 (sum_Z (repeat 60%Z 31)) < total)%Z)
    ∧ (top = "Product_C"%string →
       (wrap64 (sum_Z (repeat 60%Z 31)) < total)%Z
       ∧ (wrap64 (sum_Z (repeat 75%Z 31)) < total)%Z).
Proof.
  apply (top_product_first_largest scenario_sales scenario_customers);
    vm_compute; reflexivity.
Defined.

(** ** Which exceptions can come from where *)

Lemma bind_not_index {A B} (m : result A) (k : A → result B) :
  m ≠ Raise IndexError →
  (∀ a, m = Ok a → k a ≠ Raise IndexError) →
  (a ← m; k a) ≠ Raise IndexError.
Proof.
  destruct m as [a|e]; intros Hm Hk.
  - by apply Hk.
  - intros [= ->]. by apply Hm.
Qed.

Lemma benign_not_index {A} (m : result A) : benign m → m ≠ Raise IndexError.
Proof. by destruct m as [|[]]. Qed.

Lemma getitem_col_not_index df l : getitem_col df l ≠ Raise IndexError.
Proof. unfold getitem_col. by destruct (assoc l (columns df)). Qed.

Lemma getitem_cols_not_index df ls : getitem_cols df ls ≠ Raise IndexError.
Proof. unfold getitem_cols. by destruct (List.filter _ ls). Qed.

Lemma loc_not_index df row l : loc df row l ≠ Raise IndexError.
Proof.
  unfold loc. apply bind_not_index; [apply getitem_col_not_index|].
  intros c _. destruct row as [i|]; [|done]. by destruct (col_values c !! i).
Qed.

Lemma getitem_dict_not_index (data : Bundle) key :
  getitem_dict data key ≠ Raise IndexError.
Proof. unfold getitem_dict. by destruct (assoc key data). Qed.

Lemma make_frame_not_index cols : make_frame cols ≠ Raise IndexError.
Proof.
  unfold make_frame. destruct cols as [|[l c] cols]; [done|].
  by destruct (forallb _ _).
Qed.

Ltac not_index :=
  repeat first
    [ apply getitem_col_not_index
    | apply getitem_cols_not_index
    | apply loc_not_index
    | apply make_frame_not_index
    | apply benign_not_index, series_mean_benign
    | apply benign_not_index, format_currency_benign
    | apply benign_not_index, series_idxmax_benign
    | apply benign_not_index, labelled_idxmax_benign
    | done
    | apply bind_not_index; [|intros ? _]
    | progress cbv beta zeta ].

Lemma compute_metrics_not_index report_type sales_data customer_data :
  compute_metrics report_type sales_data customer_data ≠ Raise IndexError.
Proof.
  unfold compute_metrics. destruct (String.eqb report_type "daily").
  - unfold daily_metrics. not_index.
  - unfold weekly_metrics. not_index.
Qed.

Lemma generate_sample_data_not_index date_range randint uniform choice report_type :
  generate_sample_data date_range randint uniform choice report_type
  ≠ Raise IndexError.
Proof.
  unfold generate_sample_data. destruct (String.eqb report_type "daily"); not_index.
Qed.

Section Exceptions.

Variable float_str : float → string.
Variable strftime_now : string → string.
Variable date_range : string → list string.
Variable randint : Z → Z → nat → list Z.
Variable uniform : float → float → nat → list float.
Variable choice : list string → nat → list string.
Variable config : Config.

Local Abbreviation generate_report :=
  (generate_report float_str strftime_now date_range randint uniform choice config).
Local Abbreviation bundle_of := (bundle_of date_range randint uniform choice).


End Exceptions.

(** ** When the metrics can be computed *)

Lemma argmax_from_lt {A} (lt : A → A → bool) best bv i (xs : list A) :
  best < i → argmax_from lt best bv i xs < i + length xs.
Proof.
  revert best bv i. induction xs as [|x xs IH]; intros best bv i Hlt; simpl; [lia|].
  destruct (lt bv x).
  - specialize (IH i x (S i)). lia.
  - specialize (IH best bv (S i)). lia.
Qed.

Lemma argmax_float_from_Some i (xs : list float) :
  Exists (λ x, not_nan x = true) xs →
  ∃ k, argmax_float_from i xs = Some k ∧ k < i + length xs.
Proof.
  revert i. induction xs as [|x xs IH]; intros i Hex; [by apply Exists_nil in Hex|].
  simpl. destruct (not_nan x) eqn:Hx.
  - eexists. split; [done|].
    pose proof (argmax_from_lt (λ a b, not_nan b && PrimFloat.ltb a b) i x (S i) xs).
    lia.
  - apply Exists_cons in Hex as [Hex|Hex]; [congruence|].
    destruct (IH (S i) Hex) as (k & -> & Hk). exists k. split; [done|lia].
Qed.

Lemma series_idxmax_in_range c :
  has_maximum c →
  ∃ i, series_idxmax c = Ok (Some i) ∧ i < length (col_values c).
Proof.
  destruct c as [xs|xs|xs]; simpl; intros Hmax; [| |done].
  - destruct xs as [|x xs]; [done|]. eexists. split; [done|].
    pose proof (argmax_from_lt Z.ltb 0 x 1 xs). rewrite length_fmap. simpl. lia.
  - destruct (argmax_float_from_Some 0 xs Hmax) as (k & Hk & Hlt).
    exists k. rewrite length_fmap. split; [|lia].
    destruct xs as [|x xs]; [by apply Exists_nil in Hmax|]. by rewrite <-Hk.
Qed.

Lemma daily_metrics_ok sales_data customer_data revenue ca cb cc category :
  getitem_col sales_data "Total_Revenue" = Ok revenue → is_numeric revenue = true →
  getitem_col sales_data "Product_A" = Ok ca → is_numeric ca = true →
  getitem_col sales_data "Product_B" = Ok cb → is_numeric cb = true →
  getitem_col sales_data "Product_C" = Ok cc → is_numeric cc = true →
  getitem_col customer_data "Category" = Ok category →
  ∃ metrics, daily_metrics sales_data customer_data = Ok metrics.
Proof.
  intros Hrev Hnum Ha Hna Hb Hnb Hc Hnc Hcat. unfold daily_metrics.
  rewrite Hrev, !bind_Ok.
  destruct (series_mean_numeric revenue Hnum) as (average & ->). rewrite bind_Ok.
  apply getitem_col_assoc in Ha, Hb, Hc.
  rewrite (getitem_cols_present sales_data
             ["Product_A"; "Product_B"; "Product_C"]%string [ca; cb; cc])
    by (repeat constructor; done).
  rewrite bind_Ok. cbn [zip zip_with].
  destruct (top_product_found ca cb cc Hna Hnb Hnc) as (top & ->). rewrite bind_Ok.
  destruct (format_currency_numeric revenue Hnum) as (m1 & ->). rewrite bind_Ok.
  cbn [format_currency]. rewrite bind_Ok, Hcat, bind_Ok. by eexists.
Qed.

Lemma weekly_metrics_ok sales_data customer_data actual retention new_customers
    score department :
  getitem_col sales_data "Actual_Sales" = Ok actual → is_numeric actual = true →
  getitem_col sales_data "Customer_Retention" = Ok retention →
  is_numeric retention = true →
  getitem_col sales_data "New_Customers" = Ok new_customers →
  getitem_col customer_data "Performance_Score" = Ok score → has_maximum score →
  getitem_col customer_data "Department" = Ok department →
  length (col_values score) ≤ length (col_values department) →
  ∃ metrics i best,
    weekly_metrics sales_data customer_data = Ok metrics
    ∧ series_idxmax score = Ok (Some i)
    ∧ col_values department !! i = Some best
    ∧ assoc "Best Department" metrics = Some best.
Proof.
  intros Hact Hnact Hret Hnret Hnew Hscore Hmax Hdep Hlen. unfold weekly_metrics.
  rewrite Hact, bind_Ok, Hret, bind_Ok.
  destruct (series_mean_numeric retention Hnret) as (average & ->).
  rewrite bind_Ok, Hnew, bind_Ok.
  destruct (format_currency_numeric actual Hnact) as (m1 & ->).
  rewrite bind_Ok, Hscore, bind_Ok.
  destruct (series_idxmax_in_range score Hmax) as (i & Hi & Hlt).
  rewrite Hi, bind_Ok. unfold loc. rewrite Hdep, bind_Ok.
  destruct (col_values department !! i) as [best|] eqn:Hbest.
  - rewrite bind_Ok. eexists _, i, best. by repeat split.
  - apply lookup_ge_None in Hbest. lia.
Qed.

Section Generated.

Variable float_str : float → string.
Variable strftime_now : string → string.
Variable date_range : string → list string.
Variable randint : Z → Z → nat → list Z.
Variable uniform : float → float → nat → list float.
Variable choice : list string → nat → list string.
Variable config : Config.

Local Abbreviation generate_report :=
  (generate_report float_str strftime_now date_range randint uniform choice config).
Local Abbreviation report_path := (report_path strftime_now config).

Implicit Types (data : Bundle) (wb : Workbook).



End Generated.



(** ** Reports on sample data *)

Lemma make_frame_ok (cols : list (string * column)) n :
  cols ≠ [] →
  Forall (λ lc : string * column, length (col_values lc.2) = n) cols →
  make_frame cols = Ok {| columns := cols; nrows := n |}.
Proof.
  intros Hne Hall. unfold make_frame. destruct cols as [|[l c] cols']; [done|].
  pose proof (Forall_inv Hall) as Hhd. simpl in Hhd. rewrite Hhd.
  replace (forallb _ _) with true; [done|]. symmetry.
  apply forallb_forall. intros lc Hin%list_elem_of_In.
  rewrite Forall_forall in Hall. apply Nat.eqb_eq. by apply Hall.
Qed.

Lemma sample_draws_well_formed :
  well_formed_draws sample_randint sample_uniform sample_choice.
Proof.
  repeat split.
  - intros lo hi n. apply repeat_length.
  - intros lo hi n. apply repeat_length.
  - intros lo hi n Hlo _. unfold sample_uniform.
    apply Forall_forall. intros x Hx%list_elem_of_In%repeat_spec. by subst.
  - intros options n. apply repeat_length.
Qed.

Section SampleReports.

Variable float_str : float → string.
Variable strftime_now : string → string.
Variable date_range : string → list string.
Variable randint : Z → Z → nat → list Z.
Variable uniform : float → float → nat → list float.
Variable choice : list string → nat → list string.
Variable config : Config.

Local Abbreviation generate_sample_data :=
  (generate_sample_data date_range randint uniform choice).
Local Abbreviation generate_report :=
  (generate_report float_str strftime_now date_range randint uniform choice config).
Local Abbreviation report_path := (report_path strftime_now config).

Hypothesis draws : well_formed_draws randint uniform choice.

Ltac frame_ok first_label n :=
  match goal with
  | |- context [make_frame ((first_label, ?c) :: ?cols)] =>
      rewrite (make_frame_ok ((first_label, c) :: cols) n);
      [rewrite bind_Ok
      |done
      |let Hr := fresh in
       let Hu := fresh in
       let Hc := fresh in
       pose proof draws as (Hr & Hu & _ & Hc);
       repeat (apply List.Forall_cons;
               [cbn [snd col_values];
                by rewrite !length_fmap, ?length_seq, ?Hr, ?Hu, ?Hc|]);
       apply List.Forall_nil]
  end.

Lemma daily_sample_data :
  ∃ sales_data customer_data,
    generate_sample_data "daily"
    = Ok [("sales_data"%string, sales_data); ("customer_data"%string, customer_data)]
    ∧ labels sales_data
      = ["Date"; "Product_A"; "Product_B"; "Product_C"; "Total_Revenue"]%string
    ∧ nrows sales_data = length (date_range "D")
    ∧ labels customer_data
      = ["Customer_ID"; "Customer_Name"; "Total_Orders"; "Total_Spent";
         "Category"]%string
    ∧ nrows customer_data = 100
    ∧ (∃ metrics, daily_metrics sales_data customer_data = Ok metrics).
Proof.
  destruct draws as (Hrand & Hunif & Hnan & Hchoice).
  unfold generate_sample_data. cbn [String.eqb Ascii.eqb Bool.eqb].
  frame_ok "Date"%string (length (date_range "D")).
  frame_ok "Customer_ID"%string 100. eexists _, _. split; [done|].
  repeat (split; [done|]).
  eapply daily_metrics_ok; reflexivity.
Qed.

Lemma weekly_sample_data :
  ∃ sales_data customer_data,
    generate_sample_data "weekly"
    = Ok [("sales_data"%string, sales_data); ("customer_data"%string, customer_data)]
    ∧ labels sales_data
      = ["Week"; "Sales_Target"; "Actual_Sales"; "New_Customers";
         "Customer_Retention"]%string
    ∧ nrows sales_data = length (date_range "W")
    ∧ labels customer_data
      = ["Department"; "Budget"; "Actual_Spend"; "Performance_Score";
         "Team_Size"]%string
    ∧ nrows customer_data = 4
    ∧ (∃ metrics, weekly_metrics sales_data customer_data = Ok metrics).
Proof.
  destruct draws as (Hrand & Hunif & Hnan & Hchoice).
  unfold generate_sample_data. cbn [String.eqb Ascii.eqb Bool.eqb].
  frame_ok "Week"%string (length (date_range "W")).
  frame_ok "Department"%string 4. eexists _, _. split; [done|].
  repeat (split; [done|]).
  match goal with
  | |- ∃ metrics, weekly_metrics ?s ?c = Ok metrics =>
      edestruct (weekly_metrics_ok s c) as (metrics & _ & _ & Hm & _);
        [reflexivity|reflexivity|reflexivity|reflexivity|reflexivity|reflexivity
        | |reflexivity| |by exists metrics]
  end.
  - cbn [has_maximum length].
    pose proof (Hunif 0.6%float 1.0%float 4) as Hlen.
    pose proof (Hnan 0.6%float 1.0%float 4 eq_refl eq_refl) as Hall.
    destruct (uniform 0.6 1.0 4) as [|x xs]; [done|].
    apply Exists_cons_hd. by apply Forall_inv in Hall.
  - cbn [col_values]. rewrite !length_fmap, Hunif. simpl. lia.
Qed.


End SampleReports.


(** ** Sheet names and the report path *)

Lemma replace_length old new s : String.length (replace old new s) = String.length s.
Proof. induction s as [|c s IH]; simpl; [done|]. by rewrite IH. Qed.

Lemma title_from_length b s : String.length (title_from b s) = String.length s.
Proof.
  revert b. induction s as [|c s IH]; intros b; simpl; [done|].
  destruct (is_lower c); [|destruct (is_upper c)]; simpl; by rewrite IH.
Qed.

Lemma replace_absent old new s :
  Ascii.eqb new old = false → occurs old (replace old new s) = false.
Proof.
  intros Hne. induction s as [|c s IH]; simpl; [done|]. rewrite IH.
  destruct (Ascii.eqb c old) eqn:E; [by rewrite Hne|by rewrite E].
Qed.

Lemma replace_id old new s : occurs old s = false → replace old new s = s.
Proof.
  induction s as [|c s IH]; simpl; [done|]. intros [Hc Hs]%orb_false_elim.
  by rewrite Hc, IH.
Qed.

Lemma cased_facts c :
  (is_lower c = true →
     is_lower (to_upper c) = false ∧ is_upper (to_upper c) = true
     ∧ Ascii.eqb (to_upper c) "_" = false ∧ Ascii.eqb c "_" = false)
  ∧ (is_upper c = true →
     is_lower (to_lower c) = true ∧ is_lower c = false
     ∧ Ascii.eqb (to_lower c) "_" = false ∧ Ascii.eqb c "_" = false).
Proof.
  destruct c as [[] [] [] [] [] [] [] []]; vm_compute; split; intros; done.
Qed.

Lemma title_from_absent b s :
  occurs "_" s = false → occurs "_" (title_from b s) = false.
Proof.
  revert b. induction s as [|c s IH]; intros b; simpl; [done|].
  intros [Hc Hs]%orb_false_elim.
  destruct (cased_facts c) as [Hlow Hup].
  destruct (is_lower c) eqn:El; [|destruct (is_upper c) eqn:Eu]; simpl.
  - destruct (Hlow eq_refl) as (_ & _ & H1 & H2).
    rewrite (IH _ Hs). by destruct b; rewrite ?H1, ?H2.
  - destruct (Hup eq_refl) as (_ & _ & H1 & H2).
    rewrite (IH _ Hs). by destruct b; rewrite ?H1, ?H2.
  - by rewrite Hc, (IH _ Hs).
Qed.

Lemma title_from_idempotent b s : title_from b (title_from b s) = title_from b s.
Proof.
  revert b. induction s as [|c s IH]; intros b; simpl; [done|].
  destruct (cased_facts c) as [Hlow Hup].
  destruct (is_lower c) eqn:El; [|destruct (is_upper c) eqn:Eu].
  - destruct (Hlow eq_refl) as (H1 & H2 & _). destruct b; simpl.
    + by rewrite El, IH.
    + by rewrite H1, H2, IH.
  - destruct (Hup eq_refl) as (H1 & H2 & _). destruct b; simpl.
    + by rewrite H1, IH.
    + by rewrite El, Eu, IH.
  - simpl. by rewrite El, Eu, IH.
Qed.


Lemma append_assoc (a b c : string) : (a ++ b) ++ c = a ++ b ++ c.
Proof. induction a as [|ch a IH]; [done|]. change (String ch ((a ++ b) ++ c) = String ch (a ++ b ++ c)). by f_equal. Qed.

Lemma path_join_cases a b :
  (String.get 0 b = Some "/"%char → path_join a b = b)
  ∧ (String.get 0 b ≠ Some "/"%char →
     ∃ sep, path_join a b = a ++ sep ++ b ∧ (sep = "" ∨ sep = "/")).
Proof.
  assert (∃ sep, (if String.eqb a "" then b
                  else match String.get (String.length a - 1) a with
                       | Some "/"%char => a ++ b
                       | _ => a ++ "/" ++ b
                       end) = a ++ sep ++ b ∧ (sep = "" ∨ sep = "/")) as Hrel.
  { destruct (String.eqb_spec a "") as [->|Ha].
    { exists "". split; [done|by left]. }
    destruct (String.get _ a) as [c|]; [|exists "/"; split; [done|by right]].
    destruct (Ascii.eqb_spec c "/") as [->|Hc].
    { exists "". split; [done|by left]. }
    exists "/". split; [|by right].
    destruct c as [[] [] [] [] [] [] [] []]; done. }
  unfold path_join. destruct b as [|ch b'].
  - split; [done|]. intros _. exact Hrel.
  - cbn [String.get]. split.
    + by intros [= ->].
    + intros Hne. assert (ch ≠ "/"%char) as Hch by congruence.
      destruct ch as [[] [] [] [] [] [] [] []]; done.
Qed.

Section ReportPath.

Variable float_str : float → string.
Variable strftime_now : string → string.
Variable date_range : string → list string.
Variable randint : Z → Z → nat → list Z.
Variable uniform : float → float → nat → list float.
Variable choice : list string → nat → list string.
Variable config : Config.

Local Abbreviation generate_report :=
  (generate_report float_str strftime_now date_range randint uniform choice config).
Local Abbreviation report_filename := (report_filename strftime_now).


End ReportPath.


(** ** The configuration *)

Lemma assoc_setitem k k' v (d : dict) :
  assoc k (Settings.setitem k' v d) = if String.eqb k k' then Some v else assoc k d.
Proof.
  induction d as [|[k0 v0] d IH]; simpl.
  - done.
  - destruct (String.eqb_spec k0 k') as [->|Hne]; simpl.
    + by destruct (String.eqb k k').
    + rewrite IH. destruct (String.eqb_spec k k0) as [->|Hk].
      * by rewrite (proj2 (String.eqb_neq k0 k')).
      * done.
Qed.

Lemma assoc_None {A} k (l : list (string * A)) : k ∉ l.*1 → assoc k l = None.
Proof.
  induction l as [|[k0 a] l IH]; simpl; [done|].
  rewrite not_elem_of_cons. intros [Hne Hnotin].
  by rewrite (proj2 (String.eqb_neq k k0)), IH.
Qed.

Lemma assoc_update (d u : dict) k :
  NoDup u.*1 →
  assoc k (Settings.update d u)
  = match assoc k u with Some v => Some v | None => assoc k d end.
Proof.
  unfold Settings.update. revert d.
  induction u as [|[k0 v0] u IH]; intros d Hnodup; simpl; [done|].
  apply NoDup_cons in Hnodup as [Hnotin Hnodup].
  rewrite IH, assoc_setitem by done.
  destruct (String.eqb_spec k k0) as [->|Hne]; [|done].
  by rewrite (assoc_None k0 u).
Qed.

Lemma load_config_present config_file fs user_config :
  fs !! config_file = Some user_config →
  Settings._load_config config_file fs
  = (Settings.update Settings.default_config user_config, fs).
Proof. intros Hfile. unfold Settings._load_config. by rewrite Hfile. Qed.

(** X14. Loading a configuration file that exists: a key the file sets
    has the value of the file, whole; any other key has its default; and
    the file is left as it was, so the defaults it lacks are not written
    back. *)
Theorem load_config_merges config_file fs user_config key :
  fs !! config_file = Some user_config →
  NoDup user_config.*1 →
  assoc key (Settings._load_config config_file fs).1
  = match assoc key user_config with
    | Some v => Some v
    | None => assoc key Settings.default_config
    end
  ∧ (Settings._load_config config_file fs).2 = fs.
Proof.
  intros Hfile Hnodup. rewrite (load_config_present _ _ _ Hfile). simpl.
  split; [by apply assoc_update|done].
Qed.

Lemma load_config_merges_witness :
  assoc "output_directory"
    (Settings._load_config "report_config.json"
       {["report_config.json" := sample_user_config]}).1
  = match assoc "output_directory" sample_user_config with
    | Some v => Some v
    | None => assoc "output_directory" Settings.default_config
    end
  ∧ (Settings._load_config "report_config.json"
       {["report_config.json" := sample_user_config]}).2
    = {["report_config.json" := sample_user_config]}.
Proof.
  apply (load_config_merges "report_config.json"
           {["report_config.json" := sample_user_config]} sample_user_config
           "output_directory").
  - apply lookup_singleton_eq.
  - compute_done.
Defined.

(** X15. The merge is shallow: when the file gives a "colors" object
    without a "header" entry, the header colour lookup of
    [_apply_header_style] raises [KeyError], although a default header
    colour exists; when the file gives no "colors" at all, the lookup
    finds the default. *)
Theorem partial_colors_lose_header config_file fs user_config :
  fs !! config_file = Some user_config →
  NoDup user_config.*1 →
  (∀ colors, assoc "colors" user_config = Some (JObj colors) →
     assoc "header" colors = None →
     Settings.header_color (Settings._load_config config_file fs).1
     = Raise (KeyError ["header"]))
  ∧ (assoc "colors" user_config = None →
     Settings.header_color (Settings._load_config config_file fs).1
     = Ok (JStr "366092")).
Proof.
  intros Hfile Hnodup.
  rewrite (load_config_present _ _ _ Hfile). cbn [fst].
  pose proof (assoc_update Settings.default_config user_config "colors" Hnodup)
    as Hcolors.
  unfold Settings.header_color, Settings.getitem. split.
  - intros colors Hc Hh. rewrite Hcolors, Hc, bind_Ok.
    cbn [Settings.subscript]. unfold Settings.getitem. by rewrite Hh.
  - intros Hc. rewrite Hcolors, Hc. reflexivity.
Qed.

Lemma partial_colors_lose_header_witness :
  (∀ colors, assoc "colors" sample_user_config = Some (JObj colors) →
     assoc "header" colors = None →
     Settings.header_color
       (Settings._load_config "report_config.json"
          {["report_config.json" := sample_user_config]}).1
     = Raise (KeyError ["header"]))
  ∧ (assoc "colors" sample_user_config = None →
     Settings.header_color
       (Settings._load_config "report_config.json"
          {["report_config.json" := sample_user_config]}).1
     = Ok (JStr "366092")).
Proof.
  apply (partial_colors_lose_header "report_config.json"
           {["report_config.json" := sample_user_config]} sample_user_config).
  - apply lookup_singleton_eq.
  - compute_done.
Defined.

(** X16. Constructing the generator settles the configuration file: it
    exists afterwards, no other file is touched, and constructing the
    generator again yields the same generator and changes no file, also
    when the first construction had to write the defaults. *)
Theorem init_settles_config config_file fs :
  is_Some ((Settings.__init__ config_file fs).2 !! config_file)
  ∧ (∀ other, other ≠ config_file →
       (Settings.__init__ config_file fs).2 !! other = fs !! other)
  ∧ Settings.__init__ config_file (Settings.__init__ config_file fs).2
    = Settings.__init__ config_file fs
  ∧ Settings.workbook (Settings.__init__ config_file fs).1 = None.
Proof.
  unfold Settings.__init__, Settings._load_config.
  destruct (fs !! config_file) as [user_config|] eqn:Hfile; simpl.
  - rewrite Hfile. repeat split; try done; by eexists.
  - rewrite lookup_insert_eq. repeat split; try done.
    intros other Hne. by rewrite lookup_insert_ne.
Qed.

(** ** The setup script *)

(** X17. [create_config_file] never overwrites: a configuration file that
    exists is left as it is, no other file is touched, a configuration
    file exists afterwards, and two lines are printed. *)
Theorem setup_keeps_existing_config fs :
  (∀ user_config, fs !! "report_config.json" = Some user_config →
     (Setup.create_config_file fs).1 = fs)
  ∧ (∀ other, other ≠ "report_config.json" →
       (Setup.create_config_file fs).1 !! other = fs !! other)
  ∧ is_Some ((Setup.create_config_file fs).1 !! "report_config.json")
  ∧ length (Setup.create_config_file fs).2 = 2.
Proof.
  unfold Setup.create_config_file.
  destruct (fs !! "report_config.json") as [user_config|] eqn:Hfile; simpl.
  - rewrite Hfile. repeat split; try done; by eexists.
  - repeat split; try done.
    + intros other Hne. by rewrite lookup_insert_ne.
    + by rewrite lookup_insert_eq.
Qed.

(** X18. The generator after the setup script: when the script wrote the
    configuration file, the generator reads from it the default value of
    each of its own five keys, together with the e-mail and schedule
    sections, and leaves the file as the script wrote it. *)
Theorem setup_then_generator fs key :
  fs !! "report_config.json" = None →
  (assoc key Settings.default_config ≠ None →
     assoc key (Settings._load_config "report_config.json"
                  (Setup.create_config_file fs).1).1
     = assoc key Settings.default_config)
  ∧ (Settings._load_config "report_config.json" (Setup.create_config_file fs).1).1.*1
    = ["company_name"; "report_title"; "output_directory"; "date_format"; "colors";
       "email_settings"; "report_schedule"]
  ∧ (Settings._load_config "report_config.json" (Setup.create_config_file fs).1).2
    = (Setup.create_config_file fs).1
  ∧ Settings.header_color
      (Settings._load_config "report_config.json" (Setup.create_config_file fs).1).1
    = Ok (JStr "366092").
Proof.
  intros Hfile. unfold Setup.create_config_file, Settings._load_config.
  rewrite Hfile. cbn [fst snd]. rewrite lookup_insert_eq.
  cbn [fst snd]. split; [|by repeat split].
  intros Hkey. unfold Settings.update, Settings.default_config in *.
  cbn [foldl fst snd Settings.setitem String.eqb Ascii.eqb Bool.eqb].
  cbn [assoc] in *.
  repeat (destruct (String.eqb key _); [reflexivity|]). done.
Qed.

Lemma setup_then_generator_witness :
  (assoc "date_format" Settings.default_config ≠ None →
     assoc "date_format"
       (Settings._load_config "report_config.json" (Setup.create_config_file ∅).1).1
     = assoc "date_format" Settings.default_config)
  ∧ (Settings._load_config "report_config.json" (Setup.create_config_file ∅).1).1.*1
    = ["company_name"; "report_title"; "output_directory"; "date_format"; "colors";
       "email_settings"; "report_schedule"]
  ∧ (Settings._load_config "report_config.json" (Setup.create_config_file ∅).1).2
    = (Setup.create_config_file ∅).1
  ∧ Settings.header_color
      (Settings._load_config "report_config.json" (Setup.create_config_file ∅).1).1
    = Ok (JStr "366092").
Proof.
  apply (setup_then_generator ∅ "date_format"). apply lookup_empty.
Defined.

(** ** Keys the generator can rely on *)

(** X19. Whatever the configuration file holds, the five top-level keys
    of the defaults are present in the loaded configuration, so the
    lookups of company name, output directory and date format made while a
    report is generated cannot raise [KeyError]. *)
Theorem default_keys_always_present config_file fs key :
  (∀ user_config, fs !! config_file = Some user_config → NoDup user_config.*1) →
  key ∈ ["company_name"; "report_title"; "output_directory"; "date_format";
         "colors"] →
  ∃ v, Settings.getitem (Settings._load_config config_file fs).1 key = Ok v.
Proof.
  intros Hnodup Hkey. unfold Settings.getitem.
  assert (∃ v, assoc key Settings.default_config = Some v) as (v & Hv).
  { repeat (apply elem_of_cons in Hkey as [->|Hkey]; [by eexists|]).
    by apply elem_of_nil in Hkey. }
  destruct (fs !! config_file) as [user_config|] eqn:Hfile.
  - rewrite (load_config_present _ _ _ Hfile). cbn [fst].
    rewrite assoc_update by (by apply Hnodup).
    destruct (assoc key user_config) as [v'|]; [by exists v'|].
    rewrite Hv. by exists v.
  - unfold Settings._load_config. rewrite Hfile. cbn [fst].
    rewrite Hv. by exists v.
Qed.

Lemma default_keys_always_present_witness :
  ∃ v, Settings.getitem
         (Settings._load_config "report_config.json"
            {["report_config.json" := sample_user_config]}).1
         "output_directory"
       = Ok v.
Proof.
  apply (default_keys_always_present "report_config.json"
           {["report_config.json" := sample_user_config]} "output_directory").
  - intros user_config Hfile. rewrite lookup_singleton_eq in Hfile.
    injection Hfile as <-. compute_done.
  - set_solver.
Defined.
